(** * RoadParser: extraction of roads, lane sections and lanes from an
      OpenDRIVE document, and the sequence of MapBuilder calls it makes.

    Source: LibCarla/source/carla/opendrive/parser/RoadParser.cpp
    (RoadParser::Parse).  The C++ loops are kept as loops over the list of
    nodes they range over, threading the variables they mutate; vectors
    grow with emplace_back; the only partial operations are the accesses
    to the std::deque of lane offsets. *)

From Stdlib Require Import ZArith List String Ascii Bool Lia.
Import ListNotations.

#[local] Set Warnings "-register-all".

Local Open Scope string_scope.
Local Open Scope list_scope.
Local Open Scope Z_scope.

(** ** Results of operations that C++ leaves undefined *)

Inductive result (A : Type) : Type :=
| Ok (a : A)
| Undefined.

Arguments Ok {A} a.
Arguments Undefined {A}.

Definition bind {A B : Type} (m : result A) (k : A -> result B) : result B :=
  match m with
  | Ok a => k a
  | Undefined => Undefined
  end.

Notation "x <- m ;; k" := (bind m (fun x => k))
  (at level 61, m at next level, right associativity).

(** ** Loops *)

(** [for (x : xs) body] where the body updates the state [st]. *)
Definition for_each {X S : Type} (body : X -> S -> S) (xs : list X) (st : S) : S :=
  fold_left (fun acc x => body x acc) xs st.

(** The same loop when the body may hit undefined behaviour: the first
    undefined iteration ends the run. *)
Fixpoint for_each_M {X S : Type} (body : X -> S -> result S) (xs : list X) (st : S)
  : result S :=
  match xs with
  | [] => Ok st
  | x :: rest => st' <- body x st ;; for_each_M body rest st'
  end.

(** ** std::deque, as far as the parser uses it *)

Definition deque (A : Type) : Type := list A.

Definition deque_emplace_back {A : Type} (q : deque A) (x : A) : deque A := q ++ [x].

(** [q[n]]: undefined when [n] is not below the size. *)
Definition deque_at {A : Type} (q : deque A) (n : nat) : result A :=
  match nth_error q n with
  | Some x => Ok x
  | None => Undefined
  end.

(** [q.pop_front()]: undefined on an empty deque. *)
Definition deque_pop_front {A : Type} (q : deque A) : result (deque A) :=
  match q with
  | [] => Undefined
  | _ :: rest => Ok rest
  end.

(** std::vector::emplace_back *)
Definition emplace_back {A : Type} (v : list A) (x : A) : list A := v ++ [x].

(** ** The document (pugixml) *)

(** Modelled from the spec: the pugixml document tree (pugixml.hpp is not
    part of the sources at hand).  An element has a tag name, its attributes
    in document order and its children in document order. *)
Inductive xml_tree : Type :=
| Element (tag : string) (attrs : list (string * string)) (kids : list xml_tree).

(** Modelled from the spec: a pugixml node handle; [None] is the null handle
    that lookups return when nothing is found. *)
Definition xml_node : Type := option xml_tree.

(** Modelled from the spec: a pugixml attribute handle holding the
    attribute's text; [None] is the null attribute. *)
Definition xml_attribute : Type := option string.

Definition tag_of (t : xml_tree) : string :=
  match t with Element tag _ _ => tag end.

Definition attrs_of (t : xml_tree) : list (string * string) :=
  match t with Element _ attrs _ => attrs end.

Definition kids_of (t : xml_tree) : list xml_tree :=
  match t with Element _ _ kids => kids end.

(** Modelled from the spec: [node.children(name)], the children with that
    tag in document order; none for the null handle. *)
Definition children (name : string) (node : xml_node) : list xml_node :=
  match node with
  | None => []
  | Some t => map Some (filter (fun k => String.eqb (tag_of k) name) (kids_of t))
  end.

(** Modelled from the spec: [node.child(name)], the first child with that
    tag, or the null handle. *)
Definition child (name : string) (node : xml_node) : xml_node :=
  match node with
  | None => None
  | Some t => find (fun k => String.eqb (tag_of k) name) (kids_of t)
  end.

(** Modelled from the spec: [node.attribute(name)], the first attribute with
    that name, or the null attribute. *)
Definition attribute (name : string) (node : xml_node) : xml_attribute :=
  match node with
  | None => None
  | Some t =>
      match find (fun kv => String.eqb (fst kv) name) (attrs_of t) with
      | Some kv => Some (snd kv)
      | None => None
      end
  end.

(** Modelled from the spec: the test [if (node)] on a handle, true unless
    the handle is null. *)
Definition is_node (node : xml_node) : bool :=
  match node with Some _ => true | None => false end.

(** Modelled from the spec: how the text of a present attribute converts to
    int, float and bool, and the C++ float type itself.  The parser only
    stores and forwards these values. *)
Class PugiText : Type := {
  float : Type;
  float_zero : float;
  text_as_int : string -> Z;
  text_as_float : string -> float;
  text_as_bool : string -> bool
}.

(** The road has at least as many [laneOffset] as [laneSection] children
    under its [lanes] element. *)
Definition offsets_cover_sections (node_road : xml_node) : Prop :=
  (List.length (children "laneSection" (child "lanes" node_road))
   <= List.length (children "laneOffset" (child "lanes" node_road)))%nat.

(** Every road of the document does. *)
Definition lane_offsets_suffice (xml : xml_node) : Prop :=
  Forall offsets_cover_sections (children "road" (child "OpenDRIVE" xml)).

Section Parser.

Context {PT : PugiText}.

(** Modelled from the spec: typed attribute access, with the type's default
    (0, 0.0, the empty string, false) for the null attribute. *)
Definition as_int (a : xml_attribute) : Z :=
  match a with Some t => text_as_int t | None => 0 end.

Definition as_float (a : xml_attribute) : float :=
  match a with Some t => text_as_float t | None => float_zero end.

Definition as_bool (a : xml_attribute) : bool :=
  match a with Some t => text_as_bool t | None => false end.

Definition value (a : xml_attribute) : string :=
  match a with Some t => t | None => EmptyString end.

(** ** The structs of RoadParser.cpp *)

Record Polynomial : Type := mkPolynomial {
  Polynomial_s : float;
  Polynomial_a : float;
  Polynomial_b : float;
  Polynomial_c : float;
  Polynomial_d : float
}.

Record Lane : Type := mkLane {
  Lane_id : Z;
  Lane_type : string;
  Lane_level : bool;
  Lane_predecessor : Z;
  Lane_successor : Z
}.

Record LaneSection : Type := mkLaneSection {
  LaneSection_s : float;
  LaneSection_a : float;
  LaneSection_b : float;
  LaneSection_c : float;
  LaneSection_d : float;
  LaneSection_lanes : list Lane
}.

Record RoadTypeSpeed : Type := mkRoadTypeSpeed {
  RoadTypeSpeed_s : float;
  RoadTypeSpeed_type : string;
  RoadTypeSpeed_max : float;
  RoadTypeSpeed_unit : string
}.

Record Road : Type := mkRoad {
  Road_id : Z;
  Road_name : string;
  Road_length : float;
  Road_junction_id : Z;
  Road_predecessor : Z;
  Road_successor : Z;
  Road_speed : list RoadTypeSpeed;
  Road_sections : list LaneSection
}.

(** Assignments to single fields. *)

Definition set_Polynomial_s (x : float) (p : Polynomial) : Polynomial :=
  mkPolynomial x (Polynomial_a p) (Polynomial_b p) (Polynomial_c p) (Polynomial_d p).
Definition set_Polynomial_a (x : float) (p : Polynomial) : Polynomial :=
  mkPolynomial (Polynomial_s p) x (Polynomial_b p) (Polynomial_c p) (Polynomial_d p).
Definition set_Polynomial_b (x : float) (p : Polynomial) : Polynomial :=
  mkPolynomial (Polynomial_s p) (Polynomial_a p) x (Polynomial_c p) (Polynomial_d p).
Definition set_Polynomial_c (x : float) (p : Polynomial) : Polynomial :=
  mkPolynomial (Polynomial_s p) (Polynomial_a p) (Polynomial_b p) x (Polynomial_d p).
Definition set_Polynomial_d (x : float) (p : Polynomial) : Polynomial :=
  mkPolynomial (Polynomial_s p) (Polynomial_a p) (Polynomial_b p) (Polynomial_c p) x.

Definition set_Lane_id (x : Z) (l : Lane) : Lane :=
  mkLane x (Lane_type l) (Lane_level l) (Lane_predecessor l) (Lane_successor l).
Definition set_Lane_type (x : string) (l : Lane) : Lane :=
  mkLane (Lane_id l) x (Lane_level l) (Lane_predecessor l) (Lane_successor l).
Definition set_Lane_level (x : bool) (l : Lane) : Lane :=
  mkLane (Lane_id l) (Lane_type l) x (Lane_predecessor l) (Lane_successor l).
Definition set_Lane_predecessor (x : Z) (l : Lane) : Lane :=
  mkLane (Lane_id l) (Lane_type l) (Lane_level l) x (Lane_successor l).
Definition set_Lane_successor (x : Z) (l : Lane) : Lane :=
  mkLane (Lane_id l) (Lane_type l) (Lane_level l) (Lane_predecessor l) x.

Definition set_LaneSection_s (x : float) (s : LaneSection) : LaneSection :=
  mkLaneSection x (LaneSection_a s) (LaneSection_b s) (LaneSection_c s)
    (LaneSection_d s) (LaneSection_lanes s).
Definition set_LaneSection_a (x : float) (s : LaneSection) : LaneSection :=
  mkLaneSection (LaneSection_s s) x (LaneSection_b s) (LaneSection_c s)
    (LaneSection_d s) (LaneSection_lanes s).
Definition set_LaneSection_b (x : float) (s : LaneSection) : LaneSection :=
  mkLaneSection (LaneSection_s s) (LaneSection_a s) x (LaneSection_c s)
    (LaneSection_d s) (LaneSection_lanes s).
Definition set_LaneSection_c (x : float) (s : LaneSection) : LaneSection :=
  mkLaneSection (LaneSection_s s) (LaneSection_a s) (LaneSection_b s) x
    (LaneSection_d s) (LaneSection_lanes s).
Definition set_LaneSection_d (x : float) (s : LaneSection) : LaneSection :=
  mkLaneSection (LaneSection_s s) (LaneSection_a s) (LaneSection_b s)
    (LaneSection_c s) x (LaneSection_lanes s).
Definition set_LaneSection_lanes (x : list Lane) (s : LaneSection) : LaneSection :=
  mkLaneSection (LaneSection_s s) (LaneSection_a s) (LaneSection_b s)
    (LaneSection_c s) (LaneSection_d s) x.

Definition set_RoadTypeSpeed_s (x : float) (t : RoadTypeSpeed) : RoadTypeSpeed :=
  mkRoadTypeSpeed x (RoadTypeSpeed_type t) (RoadTypeSpeed_max t) (RoadTypeSpeed_unit t).
Definition set_RoadTypeSpeed_type (x : string) (t : RoadTypeSpeed) : RoadTypeSpeed :=
  mkRoadTypeSpeed (RoadTypeSpeed_s t) x (RoadTypeSpeed_max t) (RoadTypeSpeed_unit t).
Definition set_RoadTypeSpeed_max (x : float) (t : RoadTypeSpeed) : RoadTypeSpeed :=
  mkRoadTypeSpeed (RoadTypeSpeed_s t) (RoadTypeSpeed_type t) x (RoadTypeSpeed_unit t).
Definition set_RoadTypeSpeed_unit (x : string) (t : RoadTypeSpeed) : RoadTypeSpeed :=
  mkRoadTypeSpeed (RoadTypeSpeed_s t) (RoadTypeSpeed_type t) (RoadTypeSpeed_max t) x.

Definition set_Road_id (x : Z) (r : Road) : Road :=
  mkRoad x (Road_name r) (Road_length r) (Road_junction_id r) (Road_predecessor r)
    (Road_successor r) (Road_speed r) (Road_sections r).
Definition set_Road_name (x : string) (r : Road) : Road :=
  mkRoad (Road_id r) x (Road_length r) (Road_junction_id r) (Road_predecessor r)
    (Road_successor r) (Road_speed r) (Road_sections r).
Definition set_Road_length (x : float) (r : Road) : Road :=
  mkRoad (Road_id r) (Road_name r) x (Road_junction_id r) (Road_predecessor r)
    (Road_successor r) (Road_speed r) (Road_sections r).
Definition set_Road_junction_id (x : Z) (r : Road) : Road :=
  mkRoad (Road_id r) (Road_name r) (Road_length r) x (Road_predecessor r)
    (Road_successor r) (Road_speed r) (Road_sections r).
Definition set_Road_predecessor (x : Z) (r : Road) : Road :=
  mkRoad (Road_id r) (Road_name r) (Road_length r) (Road_junction_id r) x
    (Road_successor r) (Road_speed r) (Road_sections r).
Definition set_Road_successor (x : Z) (r : Road) : Road :=
  mkRoad (Road_id r) (Road_name r) (Road_length r) (Road_junction_id r)
    (Road_predecessor r) x (Road_speed r) (Road_sections r).
Definition set_Road_speed (x : list RoadTypeSpeed) (r : Road) : Road :=
  mkRoad (Road_id r) (Road_name r) (Road_length r) (Road_junction_id r)
    (Road_predecessor r) (Road_successor r) x (Road_sections r).
Definition set_Road_sections (x : list LaneSection) (r : Road) : Road :=
  mkRoad (Road_id r) (Road_name r) (Road_length r) (Road_junction_id r)
    (Road_predecessor r) (Road_successor r) (Road_speed r) x.

(** ** The map builder *)

(** Modelled from the spec: geom::CubicPolynomial(a, b, c, d, s), the single
    geometry value handed to AddRoadSection. *)
Record CubicPolynomial : Type := mkCubicPolynomial {
  CubicPolynomial_a : float;
  CubicPolynomial_b : float;
  CubicPolynomial_c : float;
  CubicPolynomial_d : float;
  CubicPolynomial_s : float
}.

(** Modelled from the spec: the four registration methods of
    carla::road::MapBuilder, each recorded with its arguments. *)
Inductive BuilderCall : Type :=
| AddRoad (id : Z) (name : string) (length : float)
    (junction_id predecessor successor : Z)
| SetRoadTypeSpeed (road_id : Z) (s : float) (type : string) (max : float)
    (unit : string)
| AddRoadSection (road_id : Z) (poly : CubicPolynomial)
| AddRoadSectionLane (road_id : Z) (section_index : Z) (lane_id : Z)
    (lane_type : string) (level : bool) (predecessor successor : Z).

(** Modelled from the spec: the builder is observed through the calls it
    has received so far, oldest first. *)
Definition MapBuilder : Type := list BuilderCall.

Definition call (mb : MapBuilder) (c : BuilderCall) : MapBuilder := mb ++ [c].

(** ** RoadParser::Parse, first pass: building the roads *)

(** The brace initialisers of the five local records (lines 64, 83, 102,
    113, and 126 = 150). *)
Definition road_init : Road := mkRoad 0 EmptyString float_zero (-1) (-1) (-1) [] [].

Definition type_init : RoadTypeSpeed := mkRoadTypeSpeed float_zero EmptyString float_zero EmptyString.

Definition offset_init : Polynomial :=
  mkPolynomial float_zero float_zero float_zero float_zero float_zero.

Definition section_init : LaneSection :=
  mkLaneSection float_zero float_zero float_zero float_zero float_zero [].

Definition lane_init : Lane := mkLane 0 "none" false 0 0.

(** Lines 126-142 and, word for word again, 150-171: the lane built from one
    [lane] element, up to the emplace_back. *)
Definition parse_lane (node_lane : xml_node) : Lane :=
  let lane := lane_init in
  let lane := set_Lane_id (as_int (attribute "id" node_lane)) lane in
  let lane := set_Lane_type (value (attribute "type" node_lane)) lane in
  let lane := set_Lane_level (as_bool (attribute "level" node_lane)) lane in
  let link2 := child "link" node_lane in
  if is_node link2 then
    let lane :=
      if is_node (child "predecessor" link2)
      then set_Lane_predecessor
             (as_int (attribute "id" (child "predecessor" link2))) lane
      else lane in
    let lane :=
      if is_node (child "successor" link2)
      then set_Lane_successor
             (as_int (attribute "id" (child "successor" link2))) lane
      else lane in
    lane
  else lane.

(** Body of the loops at lines 125 and 149. *)
Definition lane_body (node_lane : xml_node) (section : LaneSection) : LaneSection :=
  set_LaneSection_lanes
    (emplace_back (LaneSection_lanes section) (parse_lane node_lane)) section.

(** Lines 83-93: the entry built from one [type] element. *)
Definition parse_type_speed (node_type : xml_node) : RoadTypeSpeed :=
  let type := type_init in
  let type := set_RoadTypeSpeed_s (as_float (attribute "s" node_type)) type in
  let type := set_RoadTypeSpeed_type (value (attribute "type" node_type)) type in
  let speed := child "speed" node_type in
  if is_node speed then
    let type := set_RoadTypeSpeed_max (as_float (attribute "max" speed)) type in
    let type := set_RoadTypeSpeed_unit (value (attribute "unit" speed)) type in
    type
  else type.

(** Body of the loop at line 82. *)
Definition type_body (node_type : xml_node) (road : Road) : Road :=
  set_Road_speed (emplace_back (Road_speed road) (parse_type_speed node_type)) road.

(** Lines 102-107: the polynomial built from one [laneOffset] element. *)
Definition parse_offset (node_offset : xml_node) : Polynomial :=
  let offset := offset_init in
  let offset := set_Polynomial_s (as_float (attribute "s" node_offset)) offset in
  let offset := set_Polynomial_a (as_float (attribute "a" node_offset)) offset in
  let offset := set_Polynomial_b (as_float (attribute "b" node_offset)) offset in
  let offset := set_Polynomial_c (as_float (attribute "c" node_offset)) offset in
  let offset := set_Polynomial_d (as_float (attribute "d" node_offset)) offset in
  offset.

(** Body of the loop at line 101. *)
Definition offset_body (node_offset : xml_node) (lane_offsets : deque Polynomial)
  : deque Polynomial :=
  deque_emplace_back lane_offsets (parse_offset node_offset).

(** Body of the loop at line 112.  It mutates the road and the deque. *)
Definition section_body (node_section : xml_node) (st : Road * deque Polynomial)
  : result (Road * deque Polynomial) :=
  let '(road, lane_offsets) := st in
  let section := section_init in
  let section := set_LaneSection_s (as_float (attribute "s" node_section)) section in
  front <- deque_at lane_offsets 0 ;;
  let section := set_LaneSection_a (Polynomial_a front) section in
  front <- deque_at lane_offsets 0 ;;
  let section := set_LaneSection_b (Polynomial_b front) section in
  front <- deque_at lane_offsets 0 ;;
  let section := set_LaneSection_c (Polynomial_c front) section in
  front <- deque_at lane_offsets 0 ;;
  let section := set_LaneSection_d (Polynomial_d front) section in
  lane_offsets <- deque_pop_front lane_offsets ;;
  let section :=
    for_each lane_body (children "lane" (child "left" node_section)) section in
  let section :=
    for_each lane_body (children "lane" (child "right" node_section)) section in
  Ok (set_Road_sections (emplace_back (Road_sections road) section) road,
      lane_offsets).

(** Lines 64-79: the road record and its attributes and link. *)
Definition road_header (node_road : xml_node) : Road :=
  let road := road_init in
  let road := set_Road_id (as_int (attribute "id" node_road)) road in
  let road := set_Road_name (value (attribute "name" node_road)) road in
  let road := set_Road_length (as_float (attribute "length" node_road)) road in
  let road := set_Road_junction_id (as_int (attribute "junction" node_road)) road in
  let link := child "link" node_road in
  if is_node link then
    let road :=
      if is_node (child "predecessor" link)
      then set_Road_predecessor
             (as_int (attribute "elementId" (child "predecessor" link))) road
      else road in
    let road :=
      if is_node (child "successor" link)
      then set_Road_successor
             (as_int (attribute "elementId" (child "successor" link))) road
      else road in
    road
  else road.

(** Lines 100-109: the deque of lane offsets of a road. *)
Definition collect_lane_offsets (node_road : xml_node) : deque Polynomial :=
  for_each offset_body (children "laneOffset" (child "lanes" node_road)) [].

(** Lines 112-176: the loop over the lane sections, returning the road and
    what is left in the deque. *)
Definition build_sections (node_road : xml_node) (road : Road)
    (lane_offsets : deque Polynomial) : result (Road * deque Polynomial) :=
  for_each_M section_body (children "laneSection" (child "lanes" node_road))
    (road, lane_offsets).

(** Body of the loop at line 63. *)
Definition road_body (node_road : xml_node) (roads : list Road) : result (list Road) :=
  let road := road_header node_road in
  let road := for_each type_body (children "type" node_road) road in
  let lane_offsets := collect_lane_offsets node_road in
  st <- build_sections node_road road lane_offsets ;;
  let road := fst st in
  Ok (emplace_back roads road).

Definition parse_roads (xml : xml_node) : result (list Road) :=
  for_each_M road_body (children "road" (child "OpenDRIVE" xml)) [].

(** ** RoadParser::Parse, second pass: the map_builder calls *)

(** Body of the loop at line 229, for section index [i] of road [r]. *)
Definition forward_lane (r : Road) (i : Z) (l : Lane) (mb : MapBuilder) : MapBuilder :=
  call mb (AddRoadSectionLane (Road_id r) i (Lane_id l) (Lane_type l)
             (Lane_level l) (Lane_predecessor l) (Lane_successor l)).

(** Body of the loop at line 225; the state is the builder and the counter
    [i].  The counter ends at the number of sections of the road
    ([for_each_forward_section]); it is kept as an integer without the int
    bound, which a road would need 2^31 sections to reach. *)
Definition forward_section (r : Road) (s : LaneSection) (st : MapBuilder * Z)
  : MapBuilder * Z :=
  let '(mb, i) := st in
  let mb :=
    call mb (AddRoadSection (Road_id r)
               (mkCubicPolynomial (LaneSection_a s) (LaneSection_b s)
                  (LaneSection_c s) (LaneSection_d s) (LaneSection_s s))) in
  let mb := for_each (forward_lane r i) (LaneSection_lanes s) mb in
  (mb, i + 1).

(** Body of the loop at line 220. *)
Definition forward_speed (r : Road) (s : RoadTypeSpeed) (mb : MapBuilder) : MapBuilder :=
  call mb (SetRoadTypeSpeed (Road_id r) (RoadTypeSpeed_s s) (RoadTypeSpeed_type s)
             (RoadTypeSpeed_max s) (RoadTypeSpeed_unit s)).

(** Body of the loop at line 216. *)
Definition forward_road (r : Road) (mb : MapBuilder) : MapBuilder :=
  let mb :=
    call mb (AddRoad (Road_id r) (Road_name r) (Road_length r)
               (Road_junction_id r) (Road_predecessor r) (Road_successor r)) in
  let mb := for_each (forward_speed r) (Road_speed r) mb in
  let i := 0 in
  let st := for_each (forward_section r) (Road_sections r) (mb, i) in
  fst st.

(** RoadParser::Parse(xml, map_builder). *)
Definition Parse (xml : xml_node) (map_builder : MapBuilder) : result MapBuilder :=
  roads <- parse_roads xml ;;
  Ok (for_each forward_road roads map_builder).

(** ** What the specification expects, in closed form *)

(** The section of a [laneSection] element that is given polynomial [p]:
    its own [s], the coefficients of [p], the left lanes then the right
    lanes. *)
Definition expected_section (node_section : xml_node) (p : Polynomial) : LaneSection :=
  mkLaneSection (as_float (attribute "s" node_section))
    (Polynomial_a p) (Polynomial_b p) (Polynomial_c p) (Polynomial_d p)
    (map parse_lane (children "lane" (child "left" node_section))
     ++ map parse_lane (children "lane" (child "right" node_section))).

(** The sections of a road: its [laneSection] elements paired, position by
    position, with its [laneOffset] elements. *)
Definition expected_sections (node_road : xml_node) : list LaneSection :=
  map (fun np => expected_section (fst np) (snd np))
    (combine (children "laneSection" (child "lanes" node_road))
       (map parse_offset (children "laneOffset" (child "lanes" node_road)))).

Definition expected_road (node_road : xml_node) : Road :=
  let h := road_header node_road in
  mkRoad (Road_id h) (Road_name h) (Road_length h) (Road_junction_id h)
    (Road_predecessor h) (Road_successor h)
    (map parse_type_speed (children "type" node_road))
    (expected_sections node_road).

Definition road_call (r : Road) : BuilderCall :=
  AddRoad (Road_id r) (Road_name r) (Road_length r) (Road_junction_id r)
    (Road_predecessor r) (Road_successor r).

Definition speed_call (r : Road) (s : RoadTypeSpeed) : BuilderCall :=
  SetRoadTypeSpeed (Road_id r) (RoadTypeSpeed_s s) (RoadTypeSpeed_type s)
    (RoadTypeSpeed_max s) (RoadTypeSpeed_unit s).

Definition section_call (r : Road) (s : LaneSection) : BuilderCall :=
  AddRoadSection (Road_id r)
    (mkCubicPolynomial (LaneSection_a s) (LaneSection_b s) (LaneSection_c s)
       (LaneSection_d s) (LaneSection_s s)).

Definition lane_call (r : Road) (i : Z) (l : Lane) : BuilderCall :=
  AddRoadSectionLane (Road_id r) i (Lane_id l) (Lane_type l) (Lane_level l)
    (Lane_predecessor l) (Lane_successor l).

(** One section's calls: the section, then each of its lanes. *)
Definition expected_section_calls (r : Road) (i : Z) (s : LaneSection)
  : list BuilderCall :=
  section_call r s :: map (lane_call r i) (LaneSection_lanes s).

(** The calls of consecutive sections, the first one having index [i]. *)
Fixpoint expected_sections_calls (r : Road) (i : Z) (secs : list LaneSection)
  : list BuilderCall :=
  match secs with
  | [] => []
  | s :: rest => expected_section_calls r i s ++ expected_sections_calls r (i + 1) rest
  end.

(** One road's calls: the road, its type-speed entries, its sections. *)
Definition expected_road_calls (r : Road) : list BuilderCall :=
  road_call r :: map (speed_call r) (Road_speed r)
  ++ expected_sections_calls r 0 (Road_sections r).

Definition is_AddRoad (c : BuilderCall) : bool :=
  match c with AddRoad _ _ _ _ _ _ => true | _ => false end.

Definition is_AddRoadSection (c : BuilderCall) : bool :=
  match c with AddRoadSection _ _ => true | _ => false end.

Definition is_AddRoadSectionLane (c : BuilderCall) : bool :=
  match c with AddRoadSectionLane _ _ _ _ _ _ _ => true | _ => false end.

(** The AddRoad call the document calls for at a [road] element: the
    attributes as read, the link ids when the link and its child exist,
    -1 otherwise. *)
Definition expected_AddRoad (node_road : xml_node) : BuilderCall :=
  AddRoad (as_int (attribute "id" node_road))
    (value (attribute "name" node_road))
    (as_float (attribute "length" node_road))
    (as_int (attribute "junction" node_road))
    (match child "predecessor" (child "link" node_road) with
     | Some _ => as_int (attribute "elementId"
                           (child "predecessor" (child "link" node_road)))
     | None => -1
     end)
    (match child "successor" (child "link" node_road) with
     | Some _ => as_int (attribute "elementId"
                           (child "successor" (child "link" node_road)))
     | None => -1
     end).

(** The calls Parse makes on a document whose roads have enough lane
    offsets. *)
Definition expected_calls (xml : xml_node) : list BuilderCall :=
  List.concat (map (fun node_road => expected_road_calls (expected_road node_road))
            (children "road" (child "OpenDRIVE" xml))).

(** ** Observations on calls and records used by the further properties *)

Definition is_SetRoadTypeSpeed (c : BuilderCall) : bool :=
  match c with SetRoadTypeSpeed _ _ _ _ _ => true | _ => false end.

(** The road id a call is made for (the first argument of each method). *)
Definition call_road_id (c : BuilderCall) : Z :=
  match c with
  | AddRoad id _ _ _ _ _ => id
  | SetRoadTypeSpeed road_id _ _ _ _ => road_id
  | AddRoadSection road_id _ => road_id
  | AddRoadSectionLane road_id _ _ _ _ _ _ => road_id
  end.

(** The four fields of a polynomial that the section loop reads. *)
Definition coefficients (p : Polynomial) : float * float * float * float :=
  (Polynomial_a p, Polynomial_b p, Polynomial_c p, Polynomial_d p).

(** The number of lanes of a road, over all its sections. *)
Definition lane_count (r : Road) : nat :=
  list_sum (map (fun s => List.length (LaneSection_lanes s)) (Road_sections r)).

(** The section index of a lane call lies in [lo, hi); other calls pass. *)
Definition section_index_within (lo hi : Z) (c : BuilderCall) : Prop :=
  match c with
  | AddRoadSectionLane _ i _ _ _ _ _ => lo <= i < hi
  | _ => True
  end.

(** The SetRoadTypeSpeed call the document calls for at a [type] element
    of a road: [max] and [unit] from its [speed] child when it has one,
    0.0 and the empty string otherwise. *)
Definition expected_SetRoadTypeSpeed (node_road node_type : xml_node) : BuilderCall :=
  SetRoadTypeSpeed (as_int (attribute "id" node_road))
    (as_float (attribute "s" node_type))
    (value (attribute "type" node_type))
    (match child "speed" node_type with
     | Some _ => as_float (attribute "max" (child "speed" node_type))
     | None => float_zero
     end)
    (match child "speed" node_type with
     | Some _ => value (attribute "unit" (child "speed" node_type))
     | None => EmptyString
     end).

(** The AddRoadSection call the document calls for at a [laneSection]
    element paired with a [laneOffset] element: a, b, c, d from the offset,
    s from the section. *)
Definition expected_AddRoadSection (node_road : xml_node)
    (pair : xml_node * xml_node) : BuilderCall :=
  let (node_section, node_offset) := pair in
  AddRoadSection (as_int (attribute "id" node_road))
    (mkCubicPolynomial (as_float (attribute "a" node_offset))
       (as_float (attribute "b" node_offset))
       (as_float (attribute "c" node_offset))
       (as_float (attribute "d" node_offset))
       (as_float (attribute "s" node_section))).

(** ** Runs of Parse *)

(** The calls a run of Parse on builder [mb] may make.  A run that ends
    normally makes exactly the calls it appended.  A run that accesses the
    empty deque has undefined behaviour, on which C++ places no
    requirement: any sequence of calls may be observed. *)
Definition run_makes (xml : xml_node) (mb : MapBuilder) (calls : list BuilderCall)
  : Prop :=
  match Parse xml mb with
  | Ok mb' => mb' = mb ++ calls
  | Undefined => True
  end.

End Parser.

(** ** A concrete reading of attribute text, to run the parser on samples *)

Fixpoint digits_value (acc : Z) (t : string) : Z :=
  match t with
  | EmptyString => acc
  | String c rest =>
      let n := Z.of_nat (nat_of_ascii c) - 48 in
      if (0 <=? n) && (n <=? 9) then digits_value (10 * acc + n) rest else acc
  end.

Definition decimal_int (t : string) : Z :=
  match t with
  | String "-" rest => - digits_value 0 rest
  | _ => digits_value 0 t
  end.

Definition truthy (t : string) : bool :=
  match t with
  | String c _ =>
      existsb (Ascii.eqb c) ["1"; "t"; "T"; "y"; "Y"]%char
  | EmptyString => false
  end.

(** Integers in decimal, booleans by their first letter, and a float kept
    as the text it was written with. *)
Definition sample_text : PugiText :=
  {| float := string;
     float_zero := "0";
     text_as_int := decimal_int;
     text_as_float := fun t => t;
     text_as_bool := truthy |}.

Definition doc (roads : list xml_tree) : xml_node :=
  Some (Element EmptyString [] [Element "OpenDRIVE" [] roads]).

Definition driving_lane (id : string) : xml_tree :=
  Element "lane" [("id", id); ("type", "driving")] [].

(** The one-road document of the worked example: one lane offset, one lane
    section with a left and a right driving lane. *)
Definition sample_road : xml_tree :=
  Element "road" [("id", "10"); ("length", "50.0")]
    [Element "lanes" []
       [Element "laneOffset" [("s", "0"); ("a", "0"); ("b", "0"); ("c", "0"); ("d", "0")] [];
        Element "laneSection" [("s", "0")]
          [Element "left" [] [driving_lane "1"];
           Element "right" [] [driving_lane "-1"]]]].

(** A road whose only lane carries neither [type] nor [level]. *)
Definition untyped_lane_road : xml_tree :=
  Element "road" [("id", "7"); ("junction", "-1")]
    [Element "lanes" []
       [Element "laneOffset" [("s", "0"); ("a", "1"); ("b", "2"); ("c", "3"); ("d", "4")] [];
        Element "laneSection" [("s", "0")]
          [Element "left" [] [Element "lane" [("id", "1")] []]]]].

(** A road with two lane sections, the second one without lanes, three
    lane offsets and a link. *)
Definition two_section_road : xml_tree :=
  Element "road" [("id", "3"); ("name", "main"); ("length", "12.5")]
    [Element "link" []
       [Element "predecessor" [("elementId", "2")] [];
        Element "successor" [("elementId", "4")] []];
     Element "type" [("s", "0"); ("type", "town")]
       [Element "speed" [("max", "50"); ("unit", "km/h")] []];
     Element "type" [("s", "5"); ("type", "rural")] [];
     Element "lanes" []
       [Element "laneSection" [("s", "8")]
          [Element "right" [] [driving_lane "-1"; driving_lane "-2"];
           Element "left" [] [driving_lane "2"; driving_lane "1"]];
        Element "laneOffset" [("s", "0"); ("a", "1"); ("b", "2"); ("c", "3"); ("d", "4")] [];
        Element "laneOffset" [("s", "4"); ("a", "5"); ("b", "6"); ("c", "7"); ("d", "8")] [];
        Element "laneSection" [("s", "2")] [];
        Element "laneOffset" [("s", "9"); ("a", "9"); ("b", "9"); ("c", "9"); ("d", "9")] []]].

(** A road with one lane section and no lane offset. *)
Definition starved_road : xml_tree :=
  Element "road" [("id", "1")]
    [Element "lanes" [] [Element "laneSection" [("s", "0")] []]].

(** A road with three lane sections, each with lanes, whose [s] values are
    not in increasing order. *)
Definition three_section_road : xml_tree :=
  Element "road" [("id", "5")]
    [Element "lanes" []
       [Element "laneOffset" [("s", "0"); ("a", "1"); ("b", "1"); ("c", "1"); ("d", "1")] [];
        Element "laneOffset" [("s", "1"); ("a", "2"); ("b", "2"); ("c", "2"); ("d", "2")] [];
        Element "laneOffset" [("s", "2"); ("a", "3"); ("b", "3"); ("c", "3"); ("d", "3")] [];
        Element "laneSection" [("s", "30")]
          [Element "left" [] [driving_lane "1"]];
        Element "laneSection" [("s", "10")]
          [Element "left" [] [driving_lane "2"; driving_lane "1"];
           Element "right" [] [driving_lane "-1"]];
        Element "laneSection" [("s", "20")]
          [Element "right" [] [driving_lane "-1"]]]].

(** The record the road loop builds from it. *)
Definition three_section_record : @Road sample_text :=
  @mkRoad sample_text 5 EmptyString "0" 0 (-1) (-1) []
    [@mkLaneSection sample_text "30" "1" "1" "1" "1"
       [mkLane 1 "driving" false 0 0];
     @mkLaneSection sample_text "10" "2" "2" "2" "2"
       [mkLane 2 "driving" false 0 0; mkLane 1 "driving" false 0 0;
        mkLane (-1) "driving" false 0 0];
     @mkLaneSection sample_text "20" "3" "3" "3" "3"
       [mkLane (-1) "driving" false 0 0]].

(** The calls Parse makes on the document holding [two_section_road] and
    [sample_road]. *)
Definition two_roads_calls : list (@BuilderCall sample_text) :=
  [@AddRoad sample_text 3 "main" "12.5" 0 2 4;
   @SetRoadTypeSpeed sample_text 3 "0" "town" "50" "km/h";
   @SetRoadTypeSpeed sample_text 3 "5" "rural" "0" EmptyString;
   @AddRoadSection sample_text 3 (@mkCubicPolynomial sample_text "1" "2" "3" "4" "8");
   @AddRoadSectionLane sample_text 3 0 2 "driving" false 0 0;
   @AddRoadSectionLane sample_text 3 0 1 "driving" false 0 0;
   @AddRoadSectionLane sample_text 3 0 (-1) "driving" false 0 0;
   @AddRoadSectionLane sample_text 3 0 (-2) "driving" false 0 0;
   @AddRoadSection sample_text 3 (@mkCubicPolynomial sample_text "5" "6" "7" "8" "2");
   @AddRoad sample_text 10 EmptyString "50.0" 0 (-1) (-1);
   @AddRoadSection sample_text 10 (@mkCubicPolynomial sample_text "0" "0" "0" "0" "0");
   @AddRoadSectionLane sample_text 10 0 1 "driving" false 0 0;
   @AddRoadSectionLane sample_text 10 0 (-1) "driving" false 0 0].

(** * Properties *)

Section Properties.

Context {PT : PugiText}.

(** ** The loops of the first pass *)

Lemma for_each_cons {X S : Type} (body : X -> S -> S) (x : X) (xs : list X) (st : S) :
  for_each body (x :: xs) st = for_each body xs (body x st).
Proof. reflexivity. Qed.

Lemma for_each_lane_body (nodes : list xml_node) (section : LaneSection) :
  for_each lane_body nodes section
  = set_LaneSection_lanes (LaneSection_lanes section ++ map parse_lane nodes) section.
Proof.
  revert section.
  induction nodes as [|n nodes IH]; intros [s a b c d lanes].
  - unfold set_LaneSection_lanes; simpl. now rewrite app_nil_r.
  - rewrite for_each_cons, IH.
    unfold lane_body, set_LaneSection_lanes, emplace_back; simpl.
    now rewrite <- app_assoc.
Qed.

Lemma for_each_type_body (nodes : list xml_node) (road : Road) :
  for_each type_body nodes road
  = set_Road_speed (Road_speed road ++ map parse_type_speed nodes) road.
Proof.
  revert road.
  induction nodes as [|n nodes IH]; intros road.
  - destruct road; unfold set_Road_speed; simpl. now rewrite app_nil_r.
  - rewrite for_each_cons, IH. destruct road.
    unfold type_body, set_Road_speed, emplace_back; simpl.
    now rewrite <- app_assoc.
Qed.

Lemma for_each_offset_body (nodes : list xml_node) (q : deque Polynomial) :
  for_each offset_body nodes q = q ++ map parse_offset nodes.
Proof.
  revert q.
  induction nodes as [|n nodes IH]; intros q.
  - simpl. now rewrite app_nil_r.
  - rewrite for_each_cons, IH.
    unfold offset_body, deque_emplace_back; simpl.
    now rewrite <- app_assoc.
Qed.

Lemma collect_lane_offsets_eq (node_road : xml_node) :
  collect_lane_offsets node_road
  = map parse_offset (children "laneOffset" (child "lanes" node_road)).
Proof. unfold collect_lane_offsets. now rewrite for_each_offset_body. Qed.

(** One iteration of the section loop on a non-empty deque takes its front. *)
Lemma section_body_front (node : xml_node) (road : Road) (p : Polynomial)
    (q : deque Polynomial) :
  section_body node (road, p :: q)
  = Ok (set_Road_sections (Road_sections road ++ [expected_section node p]) road, q).
Proof.
  unfold section_body, deque_at, deque_pop_front; simpl.
  rewrite !for_each_lane_body. reflexivity.
Qed.

(** On an empty deque the first access is already undefined. *)
Lemma section_body_empty (node : xml_node) (road : Road) :
  section_body node (road, []) = Undefined.
Proof. reflexivity. Qed.

Lemma set_Road_sections_twice (x y : list LaneSection) (road : Road) :
  set_Road_sections x (set_Road_sections y road) = set_Road_sections x road.
Proof. reflexivity. Qed.

Lemma section_loop_ok (nodes : list xml_node) :
  forall (road : Road) (q : deque Polynomial),
    (List.length nodes <= List.length q)%nat ->
    for_each_M section_body nodes (road, q)
    = Ok (set_Road_sections
            (Road_sections road
             ++ map (fun np => expected_section (fst np) (snd np)) (combine nodes q))
            road,
          skipn (List.length nodes) q).
Proof.
  induction nodes as [|n nodes IH]; intros road q Hlen.
  - simpl. rewrite app_nil_r. now destruct road.
  - destruct q as [|p q]; simpl in Hlen; [lia|].
    cbn [for_each_M]. rewrite section_body_front. cbn [bind].
    rewrite IH by lia.
    rewrite set_Road_sections_twice. cbn [combine map skipn List.length fst snd].
    cbn [Road_sections set_Road_sections].
    now rewrite <- app_assoc.
Qed.

Lemma section_loop_undefined (nodes : list xml_node) :
  forall (road : Road) (q : deque Polynomial),
    (List.length q < List.length nodes)%nat ->
    for_each_M section_body nodes (road, q) = Undefined.
Proof.
  induction nodes as [|n nodes IH]; intros road q Hlen; simpl in Hlen; [lia|].
  destruct q as [|p q].
  - reflexivity.
  - cbn [for_each_M]. rewrite section_body_front. cbn [bind].
    apply IH. simpl in Hlen. lia.
Qed.

Lemma road_header_speed (node_road : xml_node) : Road_speed (road_header node_road) = [].
Proof.
  unfold road_header.
  destruct (is_node (child "link" node_road)); [|reflexivity].
  destruct (is_node (child "predecessor" (child "link" node_road)));
    destruct (is_node (child "successor" (child "link" node_road))); reflexivity.
Qed.

Lemma road_header_sections (node_road : xml_node) :
  Road_sections (road_header node_road) = [].
Proof.
  unfold road_header.
  destruct (is_node (child "link" node_road)); [|reflexivity].
  destruct (is_node (child "predecessor" (child "link" node_road)));
    destruct (is_node (child "successor" (child "link" node_road))); reflexivity.
Qed.

(** One iteration of the road loop, when the offsets cover the sections. *)
Lemma road_body_ok (node_road : xml_node) (roads : list Road) :
  offsets_cover_sections node_road ->
  road_body node_road roads = Ok (roads ++ [expected_road node_road]).
Proof.
  intros Hcover. unfold road_body, build_sections.
  rewrite collect_lane_offsets_eq, for_each_type_body.
  rewrite section_loop_ok by (rewrite length_map; exact Hcover).
  cbn [bind fst emplace_back]. do 2 f_equal.
  unfold expected_road, expected_sections.
  cbn [set_Road_sections set_Road_speed Road_id Road_name Road_length
       Road_junction_id Road_predecessor Road_successor Road_speed Road_sections].
  now rewrite road_header_speed, road_header_sections.
Qed.

(** One iteration of the road loop, when the sections outnumber the offsets. *)
Lemma road_body_undefined (node_road : xml_node) (roads : list Road) :
  ~ offsets_cover_sections node_road ->
  road_body node_road roads = Undefined.
Proof.
  intros Hcover. unfold road_body, build_sections.
  rewrite collect_lane_offsets_eq.
  rewrite section_loop_undefined; [reflexivity|].
  rewrite length_map. unfold offsets_cover_sections in Hcover. lia.
Qed.

Lemma road_loop_ok (nodes : list xml_node) :
  forall roads : list Road,
    Forall offsets_cover_sections nodes ->
    for_each_M road_body nodes roads = Ok (roads ++ map expected_road nodes).
Proof.
  induction nodes as [|n nodes IH]; intros roads Hall.
  - simpl. now rewrite app_nil_r.
  - inversion Hall as [|? ? Hn Hrest]; subst.
    cbn [for_each_M]. rewrite road_body_ok by assumption. cbn [bind].
    rewrite IH by assumption. cbn [map]. now rewrite <- app_assoc.
Qed.

Lemma offsets_cover_sections_dec (node_road : xml_node) :
  {offsets_cover_sections node_road} + {~ offsets_cover_sections node_road}.
Proof. unfold offsets_cover_sections. apply le_dec. Qed.

Lemma road_loop_undefined (nodes : list xml_node) :
  forall roads : list Road,
    ~ Forall offsets_cover_sections nodes ->
    for_each_M road_body nodes roads = Undefined.
Proof.
  induction nodes as [|n nodes IH]; intros roads Hnot.
  - exfalso. apply Hnot. constructor.
  - cbn [for_each_M].
    destruct (offsets_cover_sections_dec n) as [Hn|Hn].
    + rewrite road_body_ok by assumption. cbn [bind].
      apply IH. intros Hrest. apply Hnot. now constructor.
    + now rewrite road_body_undefined.
Qed.

(** ** The loops of the second pass *)

Lemma for_each_forward_lane (r : Road) (i : Z) (lanes : list Lane) :
  forall mb : MapBuilder,
    for_each (forward_lane r i) lanes mb = mb ++ map (lane_call r i) lanes.
Proof.
  induction lanes as [|l lanes IH]; intros mb.
  - simpl. now rewrite app_nil_r.
  - rewrite for_each_cons, IH. unfold forward_lane, call; simpl.
    now rewrite <- app_assoc.
Qed.

Lemma for_each_forward_speed (r : Road) (speeds : list RoadTypeSpeed) :
  forall mb : MapBuilder,
    for_each (forward_speed r) speeds mb = mb ++ map (speed_call r) speeds.
Proof.
  induction speeds as [|s speeds IH]; intros mb.
  - simpl. now rewrite app_nil_r.
  - rewrite for_each_cons, IH. unfold forward_speed, call; simpl.
    now rewrite <- app_assoc.
Qed.

Lemma forward_section_eq (r : Road) (s : LaneSection) (mb : MapBuilder) (i : Z) :
  forward_section r s (mb, i) = (mb ++ expected_section_calls r i s, i + 1).
Proof.
  unfold forward_section. rewrite for_each_forward_lane.
  unfold call, expected_section_calls, section_call.
  now rewrite <- app_assoc.
Qed.

Lemma for_each_forward_section (r : Road) (secs : list LaneSection) :
  forall (mb : MapBuilder) (i : Z),
    for_each (forward_section r) secs (mb, i)
    = (mb ++ expected_sections_calls r i secs, i + Z.of_nat (List.length secs)).
Proof.
  induction secs as [|s secs IH]; intros mb i.
  - simpl. rewrite app_nil_r. f_equal. lia.
  - rewrite for_each_cons, forward_section_eq, IH.
    cbn [expected_sections_calls List.length]. rewrite <- app_assoc.
    f_equal. lia.
Qed.

(** The calls made for one road. *)
Lemma forward_road_eq (r : Road) (mb : MapBuilder) :
  forward_road r mb = mb ++ expected_road_calls r.
Proof.
  unfold forward_road.
  rewrite for_each_forward_speed, for_each_forward_section.
  unfold call, expected_road_calls, road_call. cbn [fst].
  rewrite <- !app_assoc. reflexivity.
Qed.

Lemma for_each_forward_road (roads : list Road) :
  forall mb : MapBuilder,
    for_each forward_road roads mb = mb ++ List.concat (map expected_road_calls roads).
Proof.
  induction roads as [|r roads IH]; intros mb.
  - simpl. now rewrite app_nil_r.
  - rewrite for_each_cons, forward_road_eq, IH. cbn [map List.concat].
    now rewrite <- app_assoc.
Qed.

(** ** The whole of Parse *)

Lemma Parse_ok (xml : xml_node) (mb : MapBuilder) :
  lane_offsets_suffice xml ->
  Parse xml mb = Ok (mb ++ expected_calls xml).
Proof.
  intros Hall. unfold Parse, parse_roads.
  rewrite road_loop_ok by exact Hall. cbn [bind app].
  rewrite for_each_forward_road. unfold expected_calls.
  now rewrite map_map.
Qed.

Lemma Parse_undefined (xml : xml_node) (mb : MapBuilder) :
  ~ lane_offsets_suffice xml ->
  Parse xml mb = Undefined.
Proof.
  intros Hnot. unfold Parse, parse_roads.
  now rewrite road_loop_undefined.
Qed.

Lemma lane_offsets_suffice_dec (xml : xml_node) :
  {lane_offsets_suffice xml} + {~ lane_offsets_suffice xml}.
Proof. apply Forall_dec. exact offsets_cover_sections_dec. Qed.

(** ** Lane offsets are handed out first in, first out *)

Lemma nth_error_paired_sections (secs : list xml_node) :
  forall (ps : list Polynomial) (n : nat) (node_section : xml_node),
    (List.length secs <= List.length ps)%nat ->
    nth_error secs n = Some node_section ->
    exists p,
      nth_error ps n = Some p
      /\ nth_error (map (fun np => expected_section (fst np) (snd np))
                      (combine secs ps)) n
         = Some (expected_section node_section p).
Proof.
  induction secs as [|x secs IH]; intros ps n node_section Hlen Hn.
  - destruct n; discriminate.
  - destruct ps as [|p ps]; simpl in Hlen; [lia|].
    destruct n as [|n]; simpl in Hn.
    + injection Hn as ->. exists p. split; reflexivity.
    + destruct (IH ps n node_section) as [p' [Hp Hs]]; [lia|assumption|].
      exists p'. split; assumption.
Qed.

Lemma length_paired_sections (secs : list xml_node) (ps : list Polynomial) :
  (List.length secs <= List.length ps)%nat ->
  List.length (map (fun np => expected_section (fst np) (snd np)) (combine secs ps))
  = List.length secs.
Proof. intros Hlen. rewrite length_map, length_combine. lia. Qed.

(** The state in which the section loop leaves a road whose offsets cover
    its sections. *)
Lemma build_sections_ok (node_road : xml_node) :
  offsets_cover_sections node_road ->
  build_sections node_road
    (for_each type_body (children "type" node_road) (road_header node_road))
    (collect_lane_offsets node_road)
  = Ok (expected_road node_road,
        map parse_offset
          (skipn (List.length (children "laneSection" (child "lanes" node_road)))
             (children "laneOffset" (child "lanes" node_road)))).
Proof.
  intros Hcover. unfold build_sections.
  rewrite collect_lane_offsets_eq, for_each_type_body.
  rewrite section_loop_ok by (rewrite length_map; exact Hcover).
  rewrite skipn_map. do 2 f_equal.
  unfold expected_road, expected_sections.
  cbn [set_Road_sections set_Road_speed Road_id Road_name Road_length
       Road_junction_id Road_predecessor Road_successor Road_speed Road_sections].
  now rewrite road_header_speed, road_header_sections.
Qed.

(** C1.  In a road with at least as many laneOffset as laneSection
    children, the section loop ends normally; the section built at
    position [n] carries its own [s] and the coefficients a, b, c, d read
    from the laneOffset element at the same position [n]; and what is left
    in the deque afterwards is exactly the offsets from position
    (number of sections) on, so that each of the earlier ones went to one
    section and none was handed out twice. *)
Theorem lane_offsets_fifo (node_road : xml_node) (roads : list Road) :
  offsets_cover_sections node_road ->
  exists (road : Road) (left_over : deque Polynomial),
    build_sections node_road
      (for_each type_body (children "type" node_road) (road_header node_road))
      (collect_lane_offsets node_road)
    = Ok (road, left_over)
    /\ road_body node_road roads = Ok (roads ++ [road])
    /\ List.length (Road_sections road)
       = List.length (children "laneSection" (child "lanes" node_road))
    /\ (forall (n : nat) (node_section : xml_node),
          nth_error (children "laneSection" (child "lanes" node_road)) n
          = Some node_section ->
          exists (node_offset : xml_node) (section : LaneSection),
            nth_error (children "laneOffset" (child "lanes" node_road)) n
            = Some node_offset
            /\ nth_error (Road_sections road) n = Some section
            /\ LaneSection_s section = as_float (attribute "s" node_section)
            /\ LaneSection_a section = as_float (attribute "a" node_offset)
            /\ LaneSection_b section = as_float (attribute "b" node_offset)
            /\ LaneSection_c section = as_float (attribute "c" node_offset)
            /\ LaneSection_d section = as_float (attribute "d" node_offset))
    /\ left_over
       = map parse_offset
           (skipn (List.length (children "laneSection" (child "lanes" node_road)))
              (children "laneOffset" (child "lanes" node_road))).
Proof.
  intros Hcover.
  exists (expected_road node_road).
  eexists. split; [apply build_sections_ok; exact Hcover|].
  split; [apply road_body_ok; exact Hcover|].
  assert (Hlen :
    (List.length (children "laneSection" (child "lanes" node_road))
     <= List.length (map parse_offset
                       (children "laneOffset" (child "lanes" node_road))))%nat)
    by (rewrite length_map; exact Hcover).
  split; [|split; [|reflexivity]].
  - cbn [expected_road Road_sections]. unfold expected_sections.
    now apply length_paired_sections.
  - intros n node_section Hn.
    destruct (nth_error_paired_sections _ _ n node_section Hlen Hn) as [p [Hp Hs]].
    rewrite nth_error_map in Hp.
    destruct (nth_error (children "laneOffset" (child "lanes" node_road)) n)
      as [node_offset|] eqn:Hoff; [|discriminate].
    injection Hp as <-.
    exists node_offset, (expected_section node_section (parse_offset node_offset)).
    split; [reflexivity|]. split; [exact Hs|].
    repeat split.
Qed.

(** ** No access to an empty deque *)

(** A loop over [xs ++ ys] is the loop over [xs] followed by the loop over
    [ys]: the state reached after the earlier elements is the state in
    which the iteration for the next element starts. *)
Lemma for_each_M_app {X S : Type} (body : X -> S -> result S) (xs ys : list X) :
  forall st : S,
    for_each_M body (xs ++ ys) st
    = (st' <- for_each_M body xs st ;; for_each_M body ys st').
Proof.
  induction xs as [|x xs IH]; intros st.
  - reflexivity.
  - cbn [app for_each_M]. destruct (body x st) as [st'|]; cbn [bind].
    + apply IH.
    + reflexivity.
Qed.

(** C3.  In a document whose every road has at least as many laneOffset as
    laneSection children, Parse runs to its end, and whenever the section
    loop of a road starts the iteration for one of its laneSection
    elements, the deque holds at least one polynomial: the front access and
    the pop_front of that iteration are both defined. *)
Theorem deque_never_underflows (xml : xml_node) (mb : MapBuilder) :
  lane_offsets_suffice xml ->
  (exists mb' : MapBuilder, Parse xml mb = Ok mb')
  /\ forall node_road : xml_node,
       In node_road (children "road" (child "OpenDRIVE" xml)) ->
       forall (before : list xml_node) (node_section : xml_node)
              (after : list xml_node),
         children "laneSection" (child "lanes" node_road)
         = before ++ node_section :: after ->
         exists (road : Road) (p : Polynomial) (q : deque Polynomial),
           for_each_M section_body before
             (for_each type_body (children "type" node_road) (road_header node_road),
              collect_lane_offsets node_road)
           = Ok (road, p :: q)
           /\ deque_at (p :: q) 0 = Ok p
           /\ deque_pop_front (p :: q) = Ok q.
Proof.
  intros Hall. split.
  - eexists. apply Parse_ok. exact Hall.
  - intros node_road Hin before node_section after Hsplit.
    unfold lane_offsets_suffice in Hall. rewrite Forall_forall in Hall.
    specialize (Hall node_road Hin). unfold offsets_cover_sections in Hall.
    rewrite Hsplit, length_app in Hall. cbn [List.length] in Hall.
    rewrite collect_lane_offsets_eq.
    assert (Hlen :
      (List.length before
       < List.length (map parse_offset
                        (children "laneOffset" (child "lanes" node_road))))%nat)
      by (rewrite length_map; lia).
    rewrite section_loop_ok by lia.
    set (offsets := map parse_offset
                      (children "laneOffset" (child "lanes" node_road))) in *.
    destruct (skipn (List.length before) offsets) as [|p q] eqn:Hskip.
    + apply (f_equal (@List.length Polynomial)) in Hskip.
      rewrite length_skipn in Hskip. cbn [List.length] in Hskip. lia.
    + eexists. exists p, q. repeat split.
Qed.

(** ** The AddRoad calls *)

Lemma filter_none {A : Type} (f : A -> bool) (l : list A) :
  (forall x, In x l -> f x = false) -> filter f l = [].
Proof.
  induction l as [|x l IH]; intros Hall; [reflexivity|].
  cbn [filter]. rewrite (Hall x) by now left.
  apply IH. intros y Hy. apply Hall. now right.
Qed.

Lemma in_expected_section_calls (r : Road) (i : Z) (s : LaneSection) (c : BuilderCall) :
  In c (expected_section_calls r i s) ->
  c = section_call r s \/ exists l, In l (LaneSection_lanes s) /\ c = lane_call r i l.
Proof.
  intros [Hc|Hc]; [now left|right].
  apply in_map_iff in Hc. destruct Hc as [l [Hl Hin]]. now exists l.
Qed.

Lemma in_expected_sections_calls (r : Road) (secs : list LaneSection) :
  forall (i : Z) (c : BuilderCall),
    In c (expected_sections_calls r i secs) ->
    is_AddRoadSection c = true \/ is_AddRoadSectionLane c = true.
Proof.
  induction secs as [|s secs IH]; intros i c Hc; [contradiction|].
  cbn [expected_sections_calls] in Hc. apply in_app_or in Hc.
  destruct Hc as [Hc|Hc].
  - apply in_expected_section_calls in Hc.
    destruct Hc as [->|[l [_ ->]]]; [now left|now right].
  - now apply (IH (i + 1)).
Qed.

Lemma filter_AddRoad_road_calls (r : Road) :
  filter is_AddRoad (expected_road_calls r) = [road_call r].
Proof.
  unfold expected_road_calls. cbn [filter road_call is_AddRoad]. f_equal.
  rewrite filter_app, !filter_none; [reflexivity| |].
  - intros c Hc. apply in_expected_sections_calls in Hc.
    destruct c; destruct Hc; try discriminate; reflexivity.
  - intros c Hc. apply in_map_iff in Hc. destruct Hc as [s [<- _]]. reflexivity.
Qed.

(** The link part of the road record, read off the document. *)
Lemma road_call_expected_road (node_road : xml_node) :
  road_call (expected_road node_road) = expected_AddRoad node_road.
Proof.
  unfold road_call, expected_AddRoad, expected_road, road_header.
  cbn [Road_id Road_name Road_length Road_junction_id Road_predecessor
       Road_successor].
  destruct (child "link" node_road) as [link|]; cbn [is_node].
  - destruct (child "predecessor" (Some link)) as [pred|];
      destruct (child "successor" (Some link)) as [succ|]; reflexivity.
  - reflexivity.
Qed.

Lemma filter_AddRoad_expected_calls (xml : xml_node) :
  filter is_AddRoad (expected_calls xml)
  = map expected_AddRoad (children "road" (child "OpenDRIVE" xml)).
Proof.
  unfold expected_calls.
  induction (children "road" (child "OpenDRIVE" xml)) as [|n nodes IH].
  - reflexivity.
  - cbn [map List.concat]. rewrite filter_app, filter_AddRoad_road_calls, IH.
    now rewrite road_call_expected_road.
Qed.

(** C5.  On a document whose roads have enough lane offsets, Parse ends
    normally, and the AddRoad calls it adds to the builder are, in order,
    one per [road] element under [OpenDRIVE] in document order: the id,
    name, length and junction id as read from the element's attributes
    (with the accessor's defaults when absent) and the predecessor and
    successor read from the link, or -1 without one. *)
Theorem one_AddRoad_per_road (xml : xml_node) (mb : MapBuilder) :
  lane_offsets_suffice xml ->
  exists calls : list BuilderCall,
    Parse xml mb = Ok (mb ++ calls)
    /\ filter is_AddRoad calls
       = map expected_AddRoad (children "road" (child "OpenDRIVE" xml)).
Proof.
  intros Hall. exists (expected_calls xml). split.
  - now apply Parse_ok.
  - apply filter_AddRoad_expected_calls.
Qed.

(** C9.  The Road record starts with junction id -1, but on a document
    whose roads have enough lane offsets the AddRoad call made for a
    [road] element without a [junction] attribute (the k-th AddRoad call
    for the k-th road element) carries junction id 0. *)
Theorem missing_junction_is_zero (xml : xml_node) (mb : MapBuilder)
    (k : nat) (node_road : xml_node) :
  lane_offsets_suffice xml ->
  nth_error (children "road" (child "OpenDRIVE" xml)) k = Some node_road ->
  attribute "junction" node_road = None ->
  Road_junction_id road_init = -1
  /\ exists (calls : list BuilderCall) (id : Z) (name : string) (length : float)
            (predecessor successor : Z),
       Parse xml mb = Ok (mb ++ calls)
       /\ nth_error (filter is_AddRoad calls) k
          = Some (AddRoad id name length 0 predecessor successor).
Proof.
  intros Hall Hk Hjunction. split; [reflexivity|].
  exists (expected_calls xml).
  pose proof (map_nth_error expected_AddRoad k _ Hk) as Hcall.
  rewrite <- filter_AddRoad_expected_calls in Hcall.
  unfold expected_AddRoad in Hcall. rewrite Hjunction in Hcall.
  cbn [as_int] in Hcall.
  do 5 eexists. split; [now apply Parse_ok|exact Hcall].
Qed.

(** ** The order of the calls made for one road *)

Lemma split_after_prefix (P : BuilderCall -> bool) (A : list BuilderCall) :
  forall (B pre post : list BuilderCall) (c : BuilderCall),
    A ++ B = pre ++ c :: post ->
    (forall x, In x A -> P x = false) ->
    P c = true ->
    exists pre', pre = A ++ pre' /\ B = pre' ++ c :: post.
Proof.
  induction A as [|a A IH]; intros B pre post c Heq HA Hc.
  - exists pre. split; [reflexivity|exact Heq].
  - destruct pre as [|x pre]; cbn [app] in Heq; injection Heq as Hhead Htail.
    + subst a. rewrite (HA c) in Hc by now left. discriminate.
    + subst x. destruct (IH B pre post c Htail) as [pre' [-> HB]].
      * intros y Hy. apply HA. now right.
      * exact Hc.
      * exists pre'. split; [reflexivity|exact HB].
Qed.

Lemma forallb_lane_calls (r : Road) (i : Z) (lanes : list Lane) :
  forallb is_AddRoadSectionLane (map (lane_call r i) lanes) = true.
Proof. induction lanes as [|l lanes IH]; [reflexivity|exact IH]. Qed.

Lemma filter_section_lane_calls (r : Road) (i : Z) (lanes : list Lane) :
  filter is_AddRoadSection (map (lane_call r i) lanes) = [].
Proof. induction lanes as [|l lanes IH]; [reflexivity|exact IH]. Qed.

(** Where a lane call sits among the calls of consecutive sections. *)
Lemma lane_call_in_sections (r : Road) (secs : list LaneSection) :
  forall (i : Z) (pre post : list BuilderCall) (c : BuilderCall),
    expected_sections_calls r i secs = pre ++ c :: post ->
    is_AddRoadSectionLane c = true ->
    exists (k : nat) (s : LaneSection) (l : Lane) (pre1 pre2 : list BuilderCall),
      nth_error secs k = Some s
      /\ In l (LaneSection_lanes s)
      /\ c = lane_call r (i + Z.of_nat k) l
      /\ pre = pre1 ++ section_call r s :: pre2
      /\ List.length (filter is_AddRoadSection pre1) = k
      /\ forallb is_AddRoadSectionLane pre2 = true.
Proof.
  induction secs as [|s secs IH]; intros i pre post c Heq Hc.
  - destruct pre; discriminate.
  - cbn [expected_sections_calls] in Heq. unfold expected_section_calls in Heq.
    destruct pre as [|x pre0]; cbn [app] in Heq; injection Heq as Hhead Htail.
    + subst c. discriminate.
    + subst x. apply app_eq_app in Htail. destruct Htail as [m [[Hm1 Hm2]|[Hm1 Hm2]]].
      * destruct m as [|c' m].
        -- symmetry in Hm2. cbn [app] in Hm2.
           destruct (IH (i + 1) [] post c Hm2 Hc)
             as [k [s' [l [pre1 [pre2 [_ [_ [_ [Hnil _]]]]]]]]].
           destruct pre1; discriminate.
        -- cbn [app] in Hm2. injection Hm2 as <- _.
           apply map_eq_app in Hm1. destruct Hm1 as [l1 [l2 [Hl [Hl1 Hl2]]]].
           destruct l2 as [|l0 l2]; [discriminate|]. cbn [map] in Hl2.
           injection Hl2 as Hc0 _.
           exists 0%nat, s, l0, [], pre0. repeat split.
           ++ rewrite Hl. apply in_or_app. right. now left.
           ++ rewrite <- Hc0. f_equal. cbn. lia.
           ++ rewrite <- Hl1. apply forallb_lane_calls.
      * destruct (IH (i + 1) m post c Hm2 Hc)
          as [k [s' [l [pre1 [pre2 [Hk [Hl [Hcall [Hpre [Hcount Hlanes]]]]]]]]]].
        exists (S k), s', l,
          (section_call r s :: map (lane_call r i) (LaneSection_lanes s) ++ pre1),
          pre2.
        repeat split.
        -- exact Hk.
        -- exact Hl.
        -- rewrite Hcall. f_equal. lia.
        -- rewrite Hm1, Hpre. cbn [app]. now rewrite <- app_assoc.
        -- cbn [filter section_call is_AddRoadSection List.length].
           rewrite filter_app, filter_section_lane_calls. cbn [app].
           now rewrite Hcount.
        -- exact Hlanes.
Qed.

(** C4.  The calls made for one road are, in this order: its AddRoad; one
    SetRoadTypeSpeed per type-speed entry, in sequence order; then, section
    after section in sequence order, one AddRoadSection followed by one
    AddRoadSectionLane per lane of that section.  In particular whatever
    precedes an AddRoadSectionLane call contains the AddRoadSection call of
    the section owning the lane, with nothing but lane calls in between. *)
Theorem builder_calls_in_fixed_order (r : Road) (mb : MapBuilder) :
  forward_road r mb
  = mb ++ [road_call r]
       ++ map (speed_call r) (Road_speed r)
       ++ expected_sections_calls r 0 (Road_sections r)
  /\ forall (pre post : list BuilderCall) (c : BuilderCall),
       forward_road r mb = mb ++ pre ++ c :: post ->
       is_AddRoadSectionLane c = true ->
       exists (k : nat) (s : LaneSection) (l : Lane) (pre1 pre2 : list BuilderCall),
         nth_error (Road_sections r) k = Some s
         /\ In l (LaneSection_lanes s)
         /\ c = lane_call r (Z.of_nat k) l
         /\ pre = pre1 ++ section_call r s :: pre2
         /\ List.length (filter is_AddRoadSection pre1) = k
         /\ forallb is_AddRoadSectionLane pre2 = true.
Proof.
  split; [apply forward_road_eq|].
  intros pre post c Heq Hc.
  rewrite forward_road_eq in Heq. apply app_inv_head in Heq.
  unfold expected_road_calls in Heq.
  change (road_call r :: map (speed_call r) (Road_speed r)
          ++ expected_sections_calls r 0 (Road_sections r))
    with ((road_call r :: map (speed_call r) (Road_speed r))
          ++ expected_sections_calls r 0 (Road_sections r)) in Heq.
  apply (split_after_prefix is_AddRoadSectionLane) in Heq; [|clear Heq|exact Hc].
  - destruct Heq as [pre' [-> Hsecs]].
    destruct (lane_call_in_sections r _ 0 pre' post c Hsecs Hc)
      as [k [s [l [pre1 [pre2 [Hk [Hl [Hcall [Hpre [Hcount Hlanes]]]]]]]]]].
    exists k, s, l, ((road_call r :: map (speed_call r) (Road_speed r)) ++ pre1), pre2.
    repeat split; try assumption.
    + rewrite Hpre. now rewrite <- app_assoc.
    + rewrite filter_app. rewrite (filter_none is_AddRoadSection (_ :: _)).
      * exact Hcount.
      * intros x [<-|Hx]; [reflexivity|].
        apply in_map_iff in Hx. destruct Hx as [t [<- _]]. reflexivity.
  - intros x [<-|Hx]; [reflexivity|].
    apply in_map_iff in Hx. destruct Hx as [t [<- _]]. reflexivity.
Qed.

(** ** The section index *)

Lemma expected_sections_calls_app (r : Road) (l1 : list LaneSection) :
  forall (l2 : list LaneSection) (i : Z),
    expected_sections_calls r i (l1 ++ l2)
    = expected_sections_calls r i l1
      ++ expected_sections_calls r (i + Z.of_nat (List.length l1)) l2.
Proof.
  induction l1 as [|s l1 IH]; intros l2 i.
  - cbn. now rewrite Z.add_0_r.
  - cbn [app expected_sections_calls List.length]. rewrite IH, <- app_assoc.
    do 3 f_equal. lia.
Qed.

Lemma count_sections_calls (r : Road) (secs : list LaneSection) :
  forall i : Z,
    List.length (filter is_AddRoadSection (expected_sections_calls r i secs))
    = List.length secs.
Proof.
  induction secs as [|s secs IH]; intros i; [reflexivity|].
  cbn [expected_sections_calls]. unfold expected_section_calls.
  rewrite filter_app. cbn [filter section_call is_AddRoadSection].
  rewrite filter_section_lane_calls, length_app, IH. reflexivity.
Qed.

(** C6.  For the section at zero-based position [k] of the road's section
    sequence, the calls made for the road contain, right after exactly [k]
    earlier AddRoadSection calls, the section's AddRoadSection call
    followed by one AddRoadSectionLane call per lane, each with
    sectionIndex [k]; the run of lane calls ends at the next AddRoadSection
    call or at the end of the road's calls.  The section's [s] plays no
    part. *)
Theorem section_index_is_position (r : Road) (mb : MapBuilder) (k : nat)
    (s : LaneSection) :
  nth_error (Road_sections r) k = Some s ->
  exists before after : list BuilderCall,
    forward_road r mb
    = mb ++ before
         ++ (AddRoadSection (Road_id r)
               (mkCubicPolynomial (LaneSection_a s) (LaneSection_b s)
                  (LaneSection_c s) (LaneSection_d s) (LaneSection_s s))
             :: map (fun l : Lane =>
                       AddRoadSectionLane (Road_id r) (Z.of_nat k) (Lane_id l)
                         (Lane_type l) (Lane_level l) (Lane_predecessor l)
                         (Lane_successor l))
                  (LaneSection_lanes s))
         ++ after
    /\ List.length (filter is_AddRoadSection before) = k
    /\ (after = []
        \/ exists (c : BuilderCall) (rest : list BuilderCall),
             after = c :: rest /\ is_AddRoadSection c = true).
Proof.
  intros Hk. apply nth_error_split in Hk. destruct Hk as [l1 [l2 [Hsecs Hlen]]].
  exists ((road_call r :: map (speed_call r) (Road_speed r))
          ++ expected_sections_calls r 0 l1),
         (expected_sections_calls r (Z.of_nat k + 1) l2).
  split; [|split].
  - rewrite forward_road_eq. unfold expected_road_calls.
    rewrite Hsecs, expected_sections_calls_app, Hlen.
    cbn [expected_sections_calls]. unfold expected_section_calls, section_call.
    cbn [app]. rewrite <- !app_assoc. reflexivity.
  - rewrite filter_app, (filter_none is_AddRoadSection (_ :: _)).
    + cbn [app]. rewrite count_sections_calls. exact Hlen.
    + intros x [<-|Hx]; [reflexivity|].
      apply in_map_iff in Hx. destruct Hx as [t [<- _]]. reflexivity.
  - destruct l2 as [|s2 l2]; [now left|right].
    cbn [expected_sections_calls]. unfold expected_section_calls. cbn [app].
    eexists. eexists. split; reflexivity.
Qed.

(** ** The lanes of a section *)

(** C7.  The section built from a [laneSection] element holds the lanes of
    the [lane] children of its [left] child, in document order, followed by
    those of its [right] child, in document order; and the
    AddRoadSectionLane calls made for the section come in that order. *)
Theorem lanes_left_then_right (node_section : xml_node) (road : Road)
    (p : Polynomial) (q : deque Polynomial) :
  exists section : LaneSection,
    section_body node_section (road, p :: q)
    = Ok (set_Road_sections (Road_sections road ++ [section]) road, q)
    /\ LaneSection_lanes section
       = map parse_lane (children "lane" (child "left" node_section))
         ++ map parse_lane (children "lane" (child "right" node_section))
    /\ forall (r : Road) (i : Z) (mb : MapBuilder),
         fst (forward_section r section (mb, i))
         = mb ++ [section_call r section]
              ++ map (fun node_lane => lane_call r i (parse_lane node_lane))
                   (children "lane" (child "left" node_section))
              ++ map (fun node_lane => lane_call r i (parse_lane node_lane))
                   (children "lane" (child "right" node_section)).
Proof.
  exists (expected_section node_section p).
  split; [apply section_body_front|]. split; [reflexivity|].
  intros r i mb. rewrite forward_section_eq. cbn [fst].
  unfold expected_section_calls. cbn [expected_section LaneSection_lanes].
  now rewrite map_app, !map_map.
Qed.

(** C10.  A [laneSection] element with neither a [left] nor a [right]
    child still takes the front polynomial off the deque; the section
    built has that polynomial's coefficients and no lane, and forwarding
    it makes exactly one call, its AddRoadSection. *)
Theorem empty_section_consumes_offset (node_section : xml_node) (road : Road)
    (p : Polynomial) (q : deque Polynomial) (r : Road) (i : Z) (mb : MapBuilder) :
  child "left" node_section = None ->
  child "right" node_section = None ->
  exists section : LaneSection,
    section_body node_section (road, p :: q)
    = Ok (set_Road_sections (Road_sections road ++ [section]) road, q)
    /\ LaneSection_lanes section = []
    /\ (LaneSection_a section, LaneSection_b section,
        LaneSection_c section, LaneSection_d section)
       = (Polynomial_a p, Polynomial_b p, Polynomial_c p, Polynomial_d p)
    /\ forward_section r section (mb, i)
       = (mb ++ [AddRoadSection (Road_id r)
                   (mkCubicPolynomial (Polynomial_a p) (Polynomial_b p)
                      (Polynomial_c p) (Polynomial_d p)
                      (as_float (attribute "s" node_section)))],
          i + 1).
Proof.
  intros Hleft Hright.
  exists (expected_section node_section p).
  split; [apply section_body_front|].
  assert (Hlanes : LaneSection_lanes (expected_section node_section p) = [])
    by (cbn [expected_section LaneSection_lanes]; now rewrite Hleft, Hright).
  split; [exact Hlanes|]. split; [reflexivity|].
  rewrite forward_section_eq. unfold expected_section_calls.
  now rewrite Hlanes.
Qed.

(** ** Determinism *)

(** C8 (amended).  On a document whose every road has at least as many
    laneOffset as laneSection children, any two runs of Parse, on whatever
    builders (the one before a first run and the one it leaves behind, for
    instance), make the same sequence of calls, and that sequence is the one
    the document alone determines. *)
Theorem extraction_deterministic_when_covered (xml : xml_node)
    (mb mb' : MapBuilder) (calls calls' : list BuilderCall) :
  lane_offsets_suffice xml ->
  run_makes xml mb calls ->
  run_makes xml mb' calls' ->
  calls = calls' /\ calls = expected_calls xml.
Proof.
  intros Hall Hrun Hrun'. unfold run_makes in Hrun, Hrun'.
  rewrite Parse_ok in Hrun, Hrun' by exact Hall.
  apply app_inv_head in Hrun, Hrun'.
  split; congruence.
Qed.

(** ** Default values *)

Lemma parse_lane_type (node_lane : xml_node) :
  Lane_type (parse_lane node_lane) = value (attribute "type" node_lane).
Proof.
  unfold parse_lane.
  destruct (is_node (child "link" node_lane)); [|reflexivity].
  destruct (is_node (child "predecessor" (child "link" node_lane)));
    destruct (is_node (child "successor" (child "link" node_lane))); reflexivity.
Qed.

Lemma parse_lane_level (node_lane : xml_node) :
  Lane_level (parse_lane node_lane) = as_bool (attribute "level" node_lane).
Proof.
  unfold parse_lane.
  destruct (is_node (child "link" node_lane)); [|reflexivity].
  destruct (is_node (child "predecessor" (child "link" node_lane)));
    destruct (is_node (child "successor" (child "link" node_lane))); reflexivity.
Qed.

(** A lane element without [level] gives level false. *)
Lemma lane_without_level (node_lane : xml_node) :
  attribute "level" node_lane = None ->
  Lane_level (parse_lane node_lane) = false.
Proof. intros H. now rewrite parse_lane_level, H. Qed.

(** A road element without [link] keeps predecessor and successor at -1. *)
Lemma road_without_link (node_road : xml_node) :
  child "link" node_road = None ->
  Road_predecessor (road_header node_road) = -1
  /\ Road_successor (road_header node_road) = -1.
Proof. intros H. unfold road_header. rewrite H. split; reflexivity. Qed.

(** A lane element without [type] gives the empty string, whatever the
    record was initialised with. *)
Lemma lane_without_type (node_lane : xml_node) :
  attribute "type" node_lane = None ->
  Lane_type (parse_lane node_lane) = EmptyString /\ Lane_type lane_init = "none".
Proof. intros H. now rewrite parse_lane_type, H. Qed.

End Properties.

(** * The model run on sample documents *)

(** The worked example: one road with one lane offset and one lane section
    holding a left and a right driving lane. *)
Example Parse_sample_road :
  @Parse sample_text (doc [sample_road]) []
  = Ok [@AddRoad sample_text 10 EmptyString "50.0" 0 (-1) (-1);
        @AddRoadSection sample_text 10 (@mkCubicPolynomial sample_text "0" "0" "0" "0" "0");
        @AddRoadSectionLane sample_text 10 0 1 "driving" false 0 0;
        @AddRoadSectionLane sample_text 10 0 (-1) "driving" false 0 0].
Proof. reflexivity. Qed.

(** A lane section without a lane offset to take: undefined. *)
Example Parse_starved_road :
  @Parse sample_text (doc [sample_road; starved_road]) [] = Undefined.
Proof. reflexivity. Qed.

Example starved_road_not_covered : ~ lane_offsets_suffice (doc [starved_road]).
Proof.
  intros H. inversion H as [|? ? Hroad _]; subst.
  unfold offsets_cover_sections in Hroad. simpl in Hroad. lia.
Qed.

(** C2.  The lane of [untyped_lane_road] has neither [type] nor [level].
    Whatever the text conversions are, its AddRoadSectionLane call carries
    the empty string as lane type, not the "none" the Lane record is
    initialised with; its level is false. *)
Theorem lane_without_type_observed (PT : PugiText) :
  Parse (doc [untyped_lane_road]) []
  = Ok [AddRoad (text_as_int "7") EmptyString float_zero (text_as_int "-1") (-1) (-1);
        AddRoadSection (text_as_int "7")
          (mkCubicPolynomial (text_as_float "1") (text_as_float "2")
             (text_as_float "3") (text_as_float "4") (text_as_float "0"));
        AddRoadSectionLane (text_as_int "7") 0 (text_as_int "1") EmptyString false 0 0]
  /\ Lane_type lane_init = "none".
Proof. split; reflexivity. Qed.

Lemma two_roads_covered : lane_offsets_suffice (doc [two_section_road; sample_road]).
Proof.
  unfold lane_offsets_suffice. simpl.
  repeat constructor; unfold offsets_cover_sections; simpl; lia.
Defined.

Lemma lane_offsets_fifo_witness :
  offsets_cover_sections (Some two_section_road)
  /\ exists road : @Road sample_text,
       road_body (Some two_section_road) [] = Ok [road]
       /\ option_map LaneSection_a (nth_error (Road_sections road) 1) = Some "5"%string.
Proof.
  assert (Hcover : offsets_cover_sections (Some two_section_road))
    by (unfold offsets_cover_sections; simpl; lia).
  split; [exact Hcover|].
  destruct (@lane_offsets_fifo sample_text (Some two_section_road) [] Hcover)
    as [road [left_over [_ [Hbody [_ [Hnth _]]]]]].
  exists road. split; [exact Hbody|].
  destruct (Hnth 1%nat _ eq_refl)
    as [node_offset [section [Hoff [Hsec [_ [Ha _]]]]]].
  rewrite Hsec. simpl in Hoff. injection Hoff as <-.
  simpl. rewrite Ha. reflexivity.
Defined.

Lemma deque_never_underflows_witness :
  lane_offsets_suffice (doc [two_section_road; sample_road])
  /\ exists mb' : @MapBuilder sample_text,
       Parse (doc [two_section_road; sample_road]) [] = Ok mb'.
Proof.
  split; [exact two_roads_covered|].
  exact (proj1 (@deque_never_underflows sample_text
                  (doc [two_section_road; sample_road]) [] two_roads_covered)).
Defined.

Lemma one_AddRoad_per_road_witness :
  lane_offsets_suffice (doc [two_section_road; sample_road])
  /\ exists calls : list (@BuilderCall sample_text),
       Parse (doc [two_section_road; sample_road]) [] = Ok ([] ++ calls)
       /\ filter is_AddRoad calls
          = [@AddRoad sample_text 3 "main" "12.5" 0 2 4; @AddRoad sample_text 10 EmptyString "50.0" 0 (-1) (-1)].
Proof.
  split; [exact two_roads_covered|].
  exact (@one_AddRoad_per_road sample_text
           (doc [two_section_road; sample_road]) [] two_roads_covered).
Defined.

Lemma missing_junction_is_zero_witness :
  lane_offsets_suffice (doc [two_section_road; sample_road])
  /\ nth_error (children "road" (child "OpenDRIVE" (doc [two_section_road; sample_road]))) 1
     = Some (Some sample_road)
  /\ attribute "junction" (Some sample_road) = None
  /\ exists (calls : list (@BuilderCall sample_text)) (id : Z) (name : string)
            (length : @float sample_text) (predecessor successor : Z),
       Parse (doc [two_section_road; sample_road]) [] = Ok ([] ++ calls)
       /\ nth_error (filter is_AddRoad calls) 1
          = Some (@AddRoad sample_text id name length 0 predecessor successor).
Proof.
  split; [exact two_roads_covered|].
  split; [reflexivity|]. split; [reflexivity|].
  exact (proj2 (@missing_junction_is_zero sample_text
                  (doc [two_section_road; sample_road]) [] 1%nat (Some sample_road)
                  two_roads_covered eq_refl eq_refl)).
Defined.

Lemma section_index_is_position_witness :
  @road_body sample_text (Some three_section_road) [] = Ok [three_section_record]
  /\ nth_error (Road_sections three_section_record) 1
     = Some (@mkLaneSection sample_text "10" "2" "2" "2" "2"
               [mkLane 2 "driving" false 0 0; mkLane 1 "driving" false 0 0;
                mkLane (-1) "driving" false 0 0])
  /\ exists before after : list (@BuilderCall sample_text),
       forward_road three_section_record []
       = [] ++ before
            ++ [@AddRoadSection sample_text 5
                  (@mkCubicPolynomial sample_text "2" "2" "2" "2" "10");
                @AddRoadSectionLane sample_text 5 1 2 "driving" false 0 0;
                @AddRoadSectionLane sample_text 5 1 1 "driving" false 0 0;
                @AddRoadSectionLane sample_text 5 1 (-1) "driving" false 0 0]
            ++ after
       /\ List.length (filter is_AddRoadSection before) = 1%nat
       /\ (after = []
           \/ exists (c : BuilderCall) (rest : list BuilderCall),
                after = c :: rest /\ is_AddRoadSection c = true).
Proof.
  split; [reflexivity|]. split; [reflexivity|].
  exact (@section_index_is_position sample_text three_section_record [] 1%nat
           (@mkLaneSection sample_text "10" "2" "2" "2" "2"
              [mkLane 2 "driving" false 0 0; mkLane 1 "driving" false 0 0;
               mkLane (-1) "driving" false 0 0])
           eq_refl).
Defined.

Lemma empty_section_consumes_offset_witness :
  child "left" (Some (Element "laneSection" [("s", "2")] [])) = None
  /\ child "right" (Some (Element "laneSection" [("s", "2")] [])) = None
  /\ exists section : @LaneSection sample_text,
       section_body (Some (Element "laneSection" [("s", "2")] []))
         (road_init, [@mkPolynomial sample_text "4" "5" "6" "7" "8"])
       = Ok (set_Road_sections (Road_sections road_init ++ [section]) road_init, [])
       /\ LaneSection_lanes section = []
       /\ (LaneSection_a section, LaneSection_b section,
           LaneSection_c section, LaneSection_d section)
          = ("5", "6", "7", "8")
       /\ forward_section road_init section ([], 1)
          = ([] ++ [@AddRoadSection sample_text 0 (@mkCubicPolynomial sample_text "5" "6" "7" "8" "2")], 1 + 1).
Proof.
  split; [reflexivity|]. split; [reflexivity|].
  exact (@empty_section_consumes_offset sample_text
           (Some (Element "laneSection" [("s", "2")] [])) road_init
           (@mkPolynomial sample_text "4" "5" "6" "7" "8") [] road_init 1 [] eq_refl eq_refl).
Defined.

(** C8, counterexample to the claim as stated for every document: on a
    road with a lane section and no lane offset the run reads the front of
    an empty deque, and two such runs need not make the same calls. *)
Lemma runs_differ_without_offsets :
  ~ (forall calls calls' : list (@BuilderCall sample_text),
       run_makes (doc [starved_road]) [] calls ->
       run_makes (doc [starved_road]) [] calls' ->
       calls = calls').
Proof.
  intros Hsame.
  specialize (Hsame [] [@AddRoad sample_text 1 EmptyString "0" 0 (-1) (-1)] I I).
  discriminate Hsame.
Qed.

Lemma extraction_deterministic_when_covered_witness :
  lane_offsets_suffice (doc [two_section_road; sample_road])
  /\ run_makes (doc [two_section_road; sample_road]) [] two_roads_calls
  /\ run_makes (doc [two_section_road; sample_road]) two_roads_calls two_roads_calls
  /\ two_roads_calls = two_roads_calls
  /\ two_roads_calls = expected_calls (doc [two_section_road; sample_road]).
Proof.
  assert (Hfirst : run_makes (doc [two_section_road; sample_road]) [] two_roads_calls)
    by reflexivity.
  assert (Hsecond : run_makes (doc [two_section_road; sample_road])
                      two_roads_calls two_roads_calls)
    by reflexivity.
  split; [exact two_roads_covered|]. split; [exact Hfirst|]. split; [exact Hsecond|].
  exact (@extraction_deterministic_when_covered sample_text
           (doc [two_section_road; sample_road]) [] two_roads_calls
           two_roads_calls two_roads_calls two_roads_covered Hfirst Hsecond).
Defined.

(** * Further properties of Parse *)

Section FurtherProperties.

Context {PT : PugiText}.

(** ** When Parse is defined *)

(** X1.  Parse ends normally exactly on the documents whose every road has at
    least as many laneOffset as laneSection children; on any other document
    some section iteration reads the front of an empty deque. *)
Theorem Parse_defined_iff (xml : xml_node) (mb : MapBuilder) :
  (exists mb' : MapBuilder, Parse xml mb = Ok mb') <-> lane_offsets_suffice xml.
Proof.
  split.
  - intros [mb' Hok].
    destruct (lane_offsets_suffice_dec xml) as [Hall|Hnot]; [exact Hall|].
    rewrite Parse_undefined in Hok by exact Hnot. discriminate.
  - intros Hall. eexists. now apply Parse_ok.
Qed.

(** X2.  A document without an [OpenDRIVE] element, or whose [OpenDRIVE] element
    has no [road] child, leaves the builder as it was. *)
Theorem Parse_without_roads (xml : xml_node) (mb : MapBuilder) :
  children "road" (child "OpenDRIVE" xml) = [] ->
  Parse xml mb = Ok mb.
Proof.
  intros Hnone. unfold Parse, parse_roads. rewrite Hnone. reflexivity.
Qed.

Lemma road_header_id (node_road : xml_node) :
  Road_id (road_header node_road) = as_int (attribute "id" node_road).
Proof.
  unfold road_header.
  destruct (is_node (child "link" node_road)); [|reflexivity].
  destruct (is_node (child "predecessor" (child "link" node_road)));
    destruct (is_node (child "successor" (child "link" node_road))); reflexivity.
Qed.

(** X3.  A road without a [lanes] element has no lane offset and no lane
    section: its loop iteration is defined, and the calls made for it are
    its AddRoad and its SetRoadTypeSpeed calls only. *)
Theorem road_without_lanes (node_road : xml_node) (roads : list Road) :
  child "lanes" node_road = None ->
  exists road : Road,
    road_body node_road roads = Ok (roads ++ [road])
    /\ Road_sections road = []
    /\ forall mb : MapBuilder,
         forward_road road mb
         = mb ++ expected_AddRoad node_road
              :: map (speed_call road) (Road_speed road).
Proof.
  intros Hlanes.
  assert (Hcover : offsets_cover_sections node_road)
    by (unfold offsets_cover_sections; rewrite Hlanes; apply le_n).
  exists (expected_road node_road).
  split; [now apply road_body_ok|].
  assert (Hsecs : Road_sections (expected_road node_road) = [])
    by (cbn [expected_road Road_sections]; unfold expected_sections;
        now rewrite Hlanes).
  split; [exact Hsecs|].
  intros mb. rewrite forward_road_eq. unfold expected_road_calls.
  rewrite Hsecs, road_call_expected_road. cbn [expected_sections_calls].
  now rewrite app_nil_r.
Qed.

(** ** The type-speed entries *)

Lemma speed_call_parse_type_speed (node_road node_type : xml_node) :
  speed_call (expected_road node_road) (parse_type_speed node_type)
  = expected_SetRoadTypeSpeed node_road node_type.
Proof.
  unfold speed_call, expected_SetRoadTypeSpeed, parse_type_speed.
  cbn [expected_road Road_id]. rewrite road_header_id.
  destruct (child "speed" node_type); reflexivity.
Qed.

Lemma filter_SetRoadTypeSpeed_road_calls (r : Road) :
  filter is_SetRoadTypeSpeed (expected_road_calls r)
  = map (speed_call r) (Road_speed r).
Proof.
  unfold expected_road_calls. cbn [filter road_call is_SetRoadTypeSpeed].
  rewrite filter_app.
  rewrite (filter_none is_SetRoadTypeSpeed (expected_sections_calls _ _ _)).
  - rewrite app_nil_r.
    induction (Road_speed r) as [|t ts IH]; [reflexivity|].
    cbn [map filter speed_call is_SetRoadTypeSpeed]. now rewrite IH.
  - intros c Hc. apply in_expected_sections_calls in Hc.
    destruct c; destruct Hc; try discriminate; reflexivity.
Qed.

(** X4.  For a road whose offsets cover its sections, the SetRoadTypeSpeed calls
    are one per [type] child, in document order, each with the road's id,
    the entry's [s] and [type], and [max] and [unit] of its [speed] child;
    an entry without a [speed] child keeps 0.0 and the empty string. *)
Theorem type_speed_calls (node_road : xml_node) (roads : list Road) :
  offsets_cover_sections node_road ->
  exists road : Road,
    road_body node_road roads = Ok (roads ++ [road])
    /\ forall mb : MapBuilder,
         exists calls : list BuilderCall,
           forward_road road mb = mb ++ calls
           /\ filter is_SetRoadTypeSpeed calls
              = map (expected_SetRoadTypeSpeed node_road) (children "type" node_road).
Proof.
  intros Hcover. exists (expected_road node_road).
  split; [now apply road_body_ok|].
  intros mb. exists (expected_road_calls (expected_road node_road)).
  split; [apply forward_road_eq|].
  rewrite filter_SetRoadTypeSpeed_road_calls.
  cbn [expected_road Road_speed]. rewrite map_map.
  apply map_ext. intros node_type. apply speed_call_parse_type_speed.
Qed.

(** ** The link of a lane *)

(** X5.  The predecessor and successor of a lane are read from the [id] of the
    [predecessor] and [successor] children of its [link] child, each on its
    own; whichever is missing (or the whole link) leaves 0. *)
Theorem lane_link_defaults (node_lane : xml_node) :
  Lane_predecessor (parse_lane node_lane)
  = match child "predecessor" (child "link" node_lane) with
    | Some _ => as_int (attribute "id" (child "predecessor" (child "link" node_lane)))
    | None => 0
    end
  /\ Lane_successor (parse_lane node_lane)
     = match child "successor" (child "link" node_lane) with
       | Some _ => as_int (attribute "id" (child "successor" (child "link" node_lane)))
       | None => 0
       end
  /\ Lane_id (parse_lane node_lane) = as_int (attribute "id" node_lane).
Proof.
  unfold parse_lane.
  destruct (child "link" node_lane) as [link|]; cbn [is_node].
  - destruct (child "predecessor" (Some link)) as [pred|];
      destruct (child "successor" (Some link)) as [succ|];
      repeat split; reflexivity.
  - repeat split; reflexivity.
Qed.

(** ** What the section loop takes from the deque *)

(** X6.  The section loop uses the deque only through the coefficients a, b, c,
    d of as many polynomials as there are sections: two deques that agree
    on those give the same road.  The [s] of a lane offset and any offset
    beyond the last section never reach the road. *)
Theorem offsets_used_through_coefficients (nodes : list xml_node) :
  forall (road : Road) (q q' : deque Polynomial),
    (List.length nodes <= List.length q)%nat ->
    map coefficients (firstn (List.length nodes) q)
    = map coefficients (firstn (List.length nodes) q') ->
    exists (road' : Road) (rest rest' : deque Polynomial),
      for_each_M section_body nodes (road, q) = Ok (road', rest)
      /\ for_each_M section_body nodes (road, q') = Ok (road', rest').
Proof.
  induction nodes as [|n nodes IH]; intros road q q' Hlen Hmap.
  - exists road, q, q'. split; reflexivity.
  - destruct q as [|p q]; cbn [List.length] in Hlen; [lia|].
    destruct q' as [|p' q']; cbn [List.length firstn map] in Hmap; [discriminate|].
    unfold coefficients at 1 3 in Hmap.
    injection Hmap as Ha Hb Hc Hd Hrest.
    cbn [for_each_M]. rewrite !section_body_front. cbn [bind].
    assert (Hsec : expected_section n p = expected_section n p')
      by (unfold expected_section; now rewrite Ha, Hb, Hc, Hd).
    rewrite Hsec. apply IH; [lia|exact Hrest].
Qed.

(** ** The calls of one road *)

Lemma filter_AddRoadSection_sections_calls (r : Road) (secs : list LaneSection) :
  forall i : Z,
    filter is_AddRoadSection (expected_sections_calls r i secs)
    = map (section_call r) secs.
Proof.
  induction secs as [|s secs IH]; intros i; [reflexivity|].
  cbn [expected_sections_calls]. unfold expected_section_calls.
  rewrite filter_app. cbn [filter section_call is_AddRoadSection].
  rewrite filter_section_lane_calls, IH. reflexivity.
Qed.

Lemma filter_AddRoadSection_road_calls (r : Road) :
  filter is_AddRoadSection (expected_road_calls r)
  = map (section_call r) (Road_sections r).
Proof.
  unfold expected_road_calls. cbn [filter road_call is_AddRoadSection].
  rewrite filter_app, filter_AddRoadSection_sections_calls.
  rewrite (filter_none is_AddRoadSection (map _ _)); [reflexivity|].
  intros c Hc. apply in_map_iff in Hc. destruct Hc as [t [<- _]]. reflexivity.
Qed.

Lemma section_calls_of_pairs (node_road : xml_node) (secs : list xml_node) :
  forall offs : list xml_node,
    map (section_call (expected_road node_road))
      (map (fun np => expected_section (fst np) (snd np))
         (combine secs (map parse_offset offs)))
    = map (expected_AddRoadSection node_road) (combine secs offs).
Proof.
  induction secs as [|x secs IH]; intros offs; [reflexivity|].
  destruct offs as [|o offs]; [reflexivity|].
  cbn [map combine fst snd]. rewrite IH. f_equal.
  unfold section_call, expected_AddRoadSection.
  cbn [expected_road Road_id]. now rewrite road_header_id.
Qed.

(** X7.  For a road whose offsets cover its sections, the AddRoadSection calls
    are one per [laneSection] child, in document order; the call for the
    n-th one carries a, b, c, d of the n-th [laneOffset] child and the [s]
    of the [laneSection] itself. *)
Theorem section_calls_pair_offsets (node_road : xml_node) (roads : list Road) :
  offsets_cover_sections node_road ->
  exists road : Road,
    road_body node_road roads = Ok (roads ++ [road])
    /\ forall mb : MapBuilder,
         exists calls : list BuilderCall,
           forward_road road mb = mb ++ calls
           /\ filter is_AddRoadSection calls
              = map (expected_AddRoadSection node_road)
                  (combine (children "laneSection" (child "lanes" node_road))
                     (children "laneOffset" (child "lanes" node_road))).
Proof.
  intros Hcover. exists (expected_road node_road).
  split; [now apply road_body_ok|].
  intros mb. exists (expected_road_calls (expected_road node_road)).
  split; [apply forward_road_eq|].
  rewrite filter_AddRoadSection_road_calls.
  cbn [expected_road Road_sections]. unfold expected_sections.
  apply section_calls_of_pairs.
Qed.

Lemma Forall_sections_calls (r : Road) (P : BuilderCall -> Prop)
    (secs : list LaneSection) :
  forall i : Z,
    (forall s, In s secs -> P (section_call r s)) ->
    (forall k s l, nth_error secs k = Some s -> In l (LaneSection_lanes s) ->
                   P (lane_call r (i + Z.of_nat k) l)) ->
    Forall P (expected_sections_calls r i secs).
Proof.
  induction secs as [|s secs IH]; intros i Hsec Hlane; [constructor|].
  cbn [expected_sections_calls]. unfold expected_section_calls.
  apply Forall_app. split.
  - constructor; [apply Hsec; now left|].
    apply Forall_forall. intros c Hc. apply in_map_iff in Hc.
    destruct Hc as [l [<- Hl]].
    replace i with (i + Z.of_nat 0) by (cbn; lia).
    now apply (Hlane 0%nat s l).
  - apply IH.
    + intros s' Hs'. apply Hsec. now right.
    + intros k s' l Hk Hl.
      replace (i + 1 + Z.of_nat k) with (i + Z.of_nat (S k)) by lia.
      now apply (Hlane (S k) s' l).
Qed.

(** X8.  Every call made for a road carries that road's id as its first
    argument. *)
Theorem calls_carry_road_id (r : Road) (mb : MapBuilder) :
  exists calls : list BuilderCall,
    forward_road r mb = mb ++ calls
    /\ Forall (fun c => call_road_id c = Road_id r) calls.
Proof.
  exists (expected_road_calls r). split; [apply forward_road_eq|].
  unfold expected_road_calls. constructor; [reflexivity|].
  apply Forall_app. split.
  - apply Forall_forall. intros c Hc. apply in_map_iff in Hc.
    destruct Hc as [t [<- _]]. reflexivity.
  - apply Forall_sections_calls; intros; reflexivity.
Qed.

(** X9.  The section index of every AddRoadSectionLane call made for a road is
    at least 0 and below the number of sections of the road. *)
Theorem section_index_in_range (r : Road) (mb : MapBuilder) :
  exists calls : list BuilderCall,
    forward_road r mb = mb ++ calls
    /\ Forall (section_index_within 0 (Z.of_nat (List.length (Road_sections r))))
         calls.
Proof.
  exists (expected_road_calls r). split; [apply forward_road_eq|].
  unfold expected_road_calls. constructor; [exact I|].
  apply Forall_app. split.
  - apply Forall_forall. intros c Hc. apply in_map_iff in Hc.
    destruct Hc as [t [<- _]]. exact I.
  - apply Forall_sections_calls.
    + intros s _. exact I.
    + intros k s l Hk _. cbn [lane_call section_index_within].
      assert (Hlt : (k < List.length (Road_sections r))%nat)
        by (apply nth_error_Some; rewrite Hk; discriminate).
      apply Nat2Z.inj_lt in Hlt. rewrite Z.add_0_l.
      split; [apply Nat2Z.is_nonneg|exact Hlt].
Qed.

Lemma length_sections_calls (r : Road) (secs : list LaneSection) :
  forall i : Z,
    List.length (expected_sections_calls r i secs)
    = (List.length secs
       + list_sum (map (fun s => List.length (LaneSection_lanes s)) secs))%nat.
Proof.
  induction secs as [|s secs IH]; intros i; [reflexivity|].
  cbn [expected_sections_calls]. unfold expected_section_calls.
  rewrite length_app, IH. cbn [List.length map].
  rewrite length_map.
  change (list_sum (List.length (LaneSection_lanes s)
                    :: map (fun s => List.length (LaneSection_lanes s)) secs))
    with (List.length (LaneSection_lanes s)
          + list_sum (map (fun s => List.length (LaneSection_lanes s)) secs))%nat.
  lia.
Qed.

(** X10.  The number of calls made for a road: one AddRoad, one per type-speed
    entry, one per section and one per lane. *)
Theorem forward_road_call_count (r : Road) (mb : MapBuilder) :
  List.length (forward_road r mb)
  = (List.length mb + 1 + List.length (Road_speed r)
     + List.length (Road_sections r) + lane_count r)%nat.
Proof.
  rewrite forward_road_eq, length_app. unfold expected_road_calls, lane_count.
  cbn [List.length]. rewrite length_app, length_map, length_sections_calls. lia.
Qed.

(** ** What a section element contributes *)

Lemma find_skips {A : Type} (f : A -> bool) (l1 l2 : list A) (x : A) :
  f x = false -> find f (l1 ++ x :: l2) = find f (l1 ++ l2).
Proof.
  intros Hx. induction l1 as [|y l1 IH]; cbn [app find].
  - now rewrite Hx.
  - destruct (f y); [reflexivity|exact IH].
Qed.

(** X11.  A child of a [laneSection] element whose tag is neither [left] nor
    [right] (the [center] element, for one) changes nothing: the iteration
    of the section loop gives the same result with or without it. *)
Theorem section_ignores_other_children (tag : string)
    (attrs : list (string * string)) (kids1 kids2 : list xml_tree)
    (other : xml_tree) (st : Road * deque Polynomial) :
  tag_of other <> "left" ->
  tag_of other <> "right" ->
  section_body (Some (Element tag attrs (kids1 ++ other :: kids2))) st
  = section_body (Some (Element tag attrs (kids1 ++ kids2))) st.
Proof.
  intros Hleft Hright. destruct st as [road [|p q]]; [reflexivity|].
  rewrite !section_body_front. do 4 f_equal.
  unfold expected_section, child. cbn [kids_of attribute attrs_of].
  rewrite !find_skips by (now apply String.eqb_neq).
  reflexivity.
Qed.

(** ** Roads are parsed independently *)

Lemma parse_roads_doc (kids : list xml_tree) :
  parse_roads (doc kids)
  = for_each_M road_body
      (map Some (filter (fun k => String.eqb (tag_of k) "road") kids)) [].
Proof. reflexivity. Qed.

Lemma road_loop_from (nodes : list xml_node) (roads : list Road) :
  for_each_M road_body nodes roads
  = (more <- for_each_M road_body nodes [] ;; Ok (roads ++ more)).
Proof.
  destruct (Forall_dec _ offsets_cover_sections_dec nodes) as [Hall|Hnot].
  - now rewrite !road_loop_ok by exact Hall.
  - now rewrite !road_loop_undefined by exact Hnot.
Qed.

(** X12.  Parsing a document whose [OpenDRIVE] element has the children
    [kids1 ++ kids2] is parsing the document with [kids1] and then, on the
    builder this leaves, the document with [kids2]: nothing of one road,
    its left-over lane offsets in particular, carries over to the next. *)
Theorem Parse_roads_compose (kids1 kids2 : list xml_tree) (mb : MapBuilder) :
  Parse (doc (kids1 ++ kids2)) mb
  = (mb1 <- Parse (doc kids1) mb ;; Parse (doc kids2) mb1).
Proof.
  unfold Parse. rewrite !parse_roads_doc, filter_app, map_app, for_each_M_app.
  destruct (for_each_M road_body
              (map Some (filter (fun k => String.eqb (tag_of k) "road") kids1)) [])
    as [roads1|]; cbn [bind]; [|reflexivity].
  rewrite road_loop_from.
  destruct (for_each_M road_body
              (map Some (filter (fun k => String.eqb (tag_of k) "road") kids2)) [])
    as [roads2|]; cbn [bind]; [|reflexivity].
  unfold for_each. now rewrite fold_left_app.
Qed.

End FurtherProperties.

(** * The further properties on sample documents *)

Lemma two_section_road_covered : offsets_cover_sections (Some two_section_road).
Proof. unfold offsets_cover_sections. simpl. lia. Defined.

Lemma Parse_without_roads_witness :
  children "road"
    (child "OpenDRIVE" (Some (Element EmptyString [] [Element "header" [] [sample_road]])))
  = []
  /\ @Parse sample_text
       (Some (Element EmptyString [] [Element "header" [] [sample_road]]))
       [@AddRoad sample_text 1 "kept" "2.0" 0 (-1) (-1)]
     = Ok [@AddRoad sample_text 1 "kept" "2.0" 0 (-1) (-1)].
Proof.
  split; [reflexivity|].
  exact (@Parse_without_roads sample_text
           (Some (Element EmptyString [] [Element "header" [] [sample_road]]))
           [@AddRoad sample_text 1 "kept" "2.0" 0 (-1) (-1)] eq_refl).
Defined.

Lemma road_without_lanes_witness :
  child "lanes" (Some (Element "road" [("id", "4")] [Element "type" [("s", "1")] []]))
  = None
  /\ exists road : @Road sample_text,
       road_body (Some (Element "road" [("id", "4")] [Element "type" [("s", "1")] []])) []
       = Ok ([] ++ [road])
       /\ Road_sections road = []
       /\ forall mb : MapBuilder,
            forward_road road mb
            = mb ++ @AddRoad sample_text 4 EmptyString "0" 0 (-1) (-1)
                 :: map (speed_call road) (Road_speed road).
Proof.
  split; [reflexivity|].
  exact (@road_without_lanes sample_text
           (Some (Element "road" [("id", "4")] [Element "type" [("s", "1")] []]))
           [] eq_refl).
Defined.

Lemma type_speed_calls_witness :
  offsets_cover_sections (Some two_section_road)
  /\ exists road : @Road sample_text,
       road_body (Some two_section_road) [] = Ok ([] ++ [road])
       /\ forall mb : MapBuilder,
            exists calls : list BuilderCall,
              forward_road road mb = mb ++ calls
              /\ filter is_SetRoadTypeSpeed calls
                 = [@SetRoadTypeSpeed sample_text 3 "0" "town" "50" "km/h";
                    @SetRoadTypeSpeed sample_text 3 "5" "rural" "0" EmptyString].
Proof.
  split; [exact two_section_road_covered|].
  exact (@type_speed_calls sample_text (Some two_section_road) []
           two_section_road_covered).
Defined.

Lemma section_calls_pair_offsets_witness :
  offsets_cover_sections (Some two_section_road)
  /\ exists road : @Road sample_text,
       road_body (Some two_section_road) [] = Ok ([] ++ [road])
       /\ forall mb : MapBuilder,
            exists calls : list BuilderCall,
              forward_road road mb = mb ++ calls
              /\ filter is_AddRoadSection calls
                 = [@AddRoadSection sample_text 3
                      (@mkCubicPolynomial sample_text "1" "2" "3" "4" "8");
                    @AddRoadSection sample_text 3
                      (@mkCubicPolynomial sample_text "5" "6" "7" "8" "2")].
Proof.
  split; [exact two_section_road_covered|].
  exact (@section_calls_pair_offsets sample_text (Some two_section_road) []
           two_section_road_covered).
Defined.

Lemma offsets_used_through_coefficients_witness :
  (List.length [Some (Element "laneSection" [("s", "2")] [])]
   <= List.length [@mkPolynomial sample_text "0" "1" "2" "3" "4";
                   @mkPolynomial sample_text "5" "5" "5" "5" "5"])%nat
  /\ map coefficients
       (firstn (List.length [Some (Element "laneSection" [("s", "2")] [])])
          [@mkPolynomial sample_text "0" "1" "2" "3" "4";
           @mkPolynomial sample_text "5" "5" "5" "5" "5"])
     = map coefficients
         (firstn (List.length [Some (Element "laneSection" [("s", "2")] [])])
            [@mkPolynomial sample_text "9" "1" "2" "3" "4"])
  /\ exists (road' : @Road sample_text) (rest rest' : deque Polynomial),
       for_each_M section_body [Some (Element "laneSection" [("s", "2")] [])]
         (road_init,
          [@mkPolynomial sample_text "0" "1" "2" "3" "4";
           @mkPolynomial sample_text "5" "5" "5" "5" "5"])
       = Ok (road', rest)
       /\ for_each_M section_body [Some (Element "laneSection" [("s", "2")] [])]
            (road_init, [@mkPolynomial sample_text "9" "1" "2" "3" "4"])
          = Ok (road', rest').
Proof.
  split; [simpl; lia|]. split; [reflexivity|].
  apply (@offsets_used_through_coefficients sample_text
           [Some (Element "laneSection" [("s", "2")] [])] road_init
           [@mkPolynomial sample_text "0" "1" "2" "3" "4";
            @mkPolynomial sample_text "5" "5" "5" "5" "5"]
           [@mkPolynomial sample_text "9" "1" "2" "3" "4"]);
    [simpl; lia|reflexivity].
Defined.

Lemma section_ignores_other_children_witness :
  tag_of (Element "center" [] [driving_lane "0"]) <> "left"
  /\ tag_of (Element "center" [] [driving_lane "0"]) <> "right"
  /\ @section_body sample_text
       (Some (Element "laneSection" [("s", "0")]
                ([Element "left" [] [driving_lane "1"]]
                 ++ Element "center" [] [driving_lane "0"]
                 :: [Element "right" [] [driving_lane "-1"]])))
       (road_init, [@mkPolynomial sample_text "0" "1" "2" "3" "4"])
     = section_body
         (Some (Element "laneSection" [("s", "0")]
                  ([Element "left" [] [driving_lane "1"]]
                   ++ [Element "right" [] [driving_lane "-1"]])))
         (road_init, [@mkPolynomial sample_text "0" "1" "2" "3" "4"]).
Proof.
  assert (Hleft : tag_of (Element "center" [] [driving_lane "0"]) <> "left")
    by discriminate.
  assert (Hright : tag_of (Element "center" [] [driving_lane "0"]) <> "right")
    by discriminate.
  split; [exact Hleft|]. split; [exact Hright|].
  exact (@section_ignores_other_children sample_text "laneSection" [("s", "0")]
           [Element "left" [] [driving_lane "1"]]
           [Element "right" [] [driving_lane "-1"]]
           (Element "center" [] [driving_lane "0"])
           (road_init, [@mkPolynomial sample_text "0" "1" "2" "3" "4"])
           Hleft Hright).
Defined.
